(** * Property listing backend: route handlers of the auth and properties routers

    A shallow embedding of the Express handlers of [routes/properties.js] and
    of the auth router, over an in-memory model of the two collections they
    use.  JavaScript objects (request bodies, documents, response envelopes)
    are finite maps from field names to JSON values; a collection is the list
    of its documents in natural order.  Strings are sequences of characters
    of the ASCII repertoire and numbers are integers. *)

From stdpp Require Import gmap strings list fin_maps.
From Stdlib Require Import ZArith Ascii.

Set Warnings "-register-all".
#[local] Open Scope string_scope.
#[local] Open Scope list_scope.
#[local] Open Scope Z_scope.

(** ** JavaScript values *)

Module Js.

Inductive value :=
  | VUndef
  | VNull
  | VBool (b : bool)
  | VNum (z : Z)
  | VStr (s : string)
  | VArr (l : list value)
  | VObj (m : gmap string value).

(** [o.k]: reading a field that is absent gives [undefined]. *)
Definition field (o : gmap string value) (k : string) : value :=
  default VUndef (o !! k).

(** An object literal [{k1: v1, ..., kn: vn}] (keys pairwise distinct). *)
Definition obj (kvs : list (string * value)) : gmap string value :=
  foldr (fun kv o => <[kv.1 := kv.2]> o) ∅ kvs.

(** ToBoolean. *)
Definition truthy (v : value) : bool :=
  match v with
  | VUndef | VNull => false
  | VBool b => b
  | VNum z => negb (z =? 0)
  | VStr s => negb (String.eqb s "")
  | VArr _ | VObj _ => true
  end.

(** [a || b]. *)
Definition js_or (a b : value) : value := if truthy a then a else b.

(** [v === 'lit'] for a string literal. *)
Definition is_str (lit : string) (v : value) : bool :=
  match v with
  | VStr s => String.eqb s lit
  | _ => false
  end.

Definition code (c : ascii) : Z := Z.of_N (N_of_ascii c).

Definition digit_in (radix : Z) (c : ascii) : option Z :=
  let n := code c in
  let d := if (48 <=? n) && (n <=? 57) then n - 48
           else if (97 <=? n) && (n <=? 122) then n - 87
           else if (65 <=? n) && (n <=? 90) then n - 55
           else radix in
  if d <? radix then Some d else None.

(** The value of the longest prefix of digits of [s], continuing from [acc]. *)
Fixpoint digits_prefix (radix acc : Z) (s : string) : Z :=
  match s with
  | String c r =>
      match digit_in radix c with
      | Some d => digits_prefix radix (radix * acc + d) r
      | None => acc
      end
  | EmptyString => acc
  end.

(** At least one digit is needed; [None] otherwise. *)
Definition parse_digits (radix : Z) (s : string) : option Z :=
  match s with
  | String c r =>
      match digit_in radix c with
      | Some d => Some (digits_prefix radix d r)
      | None => None
      end
  | EmptyString => None
  end.

Definition is_space (c : ascii) : bool :=
  let n := code c in ((9 <=? n) && (n <=? 13)) || (n =? 32).

Fixpoint skip_space (s : string) : string :=
  match s with
  | String c r => if is_space c then skip_space r else s
  | EmptyString => s
  end.

(** An optional sign in front of a numeral. *)
Definition strip_sign (s : string) : bool * string :=
  match s with
  | String c r =>
      if Ascii.eqb c "-" then (true, r)
      else if Ascii.eqb c "+" then (false, r)
      else (false, s)
  | EmptyString => (false, s)
  end.

(** An optional [0x] or [0X] in front of the digits selects radix 16. *)
Definition strip_radix (s : string) : Z * string :=
  match s with
  | String c (String x r) =>
      if Ascii.eqb c "0" && (Ascii.eqb x "x" || Ascii.eqb x "X")
      then (16, r) else (10, s)
  | _ => (10, s)
  end.

Definition signed (neg : bool) (z : Z) : Z := if neg then - z else z.

(** [parseInt(s)] on a string: leading white space is skipped, then an
    optional sign, an optional [0x]/[0X] prefix, and the longest prefix of
    digits is read; [None] stands for [NaN]. *)
Definition parseInt_str (s : string) : option Z :=
  let '(neg, s2) := strip_sign (skip_space s) in
  let '(radix, s3) := strip_radix s2 in
  signed neg <$> parse_digits radix s3.

Definition parseInt (v : value) : option Z :=
  match v with
  | VNum z => Some z
  | VStr s => parseInt_str s
  | _ => None
  end.

(** All characters of [s] are decimal digits, and there is at least one. *)
Fixpoint all_digits (s : string) : bool :=
  match s with
  | String c r =>
      match digit_in 10 c with
      | Some _ => match r with EmptyString => true | _ => all_digits r end
      | None => false
      end
  | EmptyString => false
  end.

(** The value of a string that is an optionally signed run of decimal
    digits; [None] for any other string. *)
Definition decimal_int (s : string) : option Z :=
  let '(neg, r) := strip_sign s in
  if all_digits r then Some (signed neg (digits_prefix 10 0 r)) else None.

(** A numeral cut at its first [e] or [E]: what is before it, and what is
    after it when there is one. *)
Fixpoint split_exp (s : string) : string * option string :=
  match s with
  | String c r =>
      if Ascii.eqb c "e" || Ascii.eqb c "E" then (EmptyString, Some r)
      else let '(m, x) := split_exp r in (String c m, x)
  | EmptyString => (EmptyString, None)
  end.

(** The digits of an exponent, after an optional [+]. *)
Definition exponent_digits (s : string) : string :=
  match s with
  | String c r => if Ascii.eqb c "+" then r else s
  | EmptyString => s
  end.

Definition toNumber_str (s : string) : option Z :=
  let '(neg, r) := strip_sign s in
  let '(m, x) := split_exp r in
  if all_digits m then
    match x with
    | None => Some (signed neg (digits_prefix 10 0 m))
    | Some xs =>
        if all_digits (exponent_digits xs)
        then Some (signed neg (digits_prefix 10 0 m
                               * 10 ^ digits_prefix 10 0 (exponent_digits xs)))
        else None
    end
  else None.

(** ToNumber, as the arithmetic operators [*], [-], [<] and [>] apply it to
    their operands, on the integer fragment: a number is itself, and a
    string that is an optionally signed run of decimal digits, with an
    optional exponent that is not negative ([1e1] is 10), is its value.
    [None] marks an operand outside this fragment (fractions, negative
    exponents, other notations, [NaN]), for which the handlers are not
    modelled. *)
Definition toNumber (v : value) : option Z :=
  match v with
  | VNum z => Some z
  | VStr s => toNumber_str s
  | _ => None
  end.

(** Equality of two scalar values; arrays and objects are equal to
    nothing. *)
Definition scalar_eq (a b : value) : bool :=
  match a, b with
  | VNull, VNull => true
  | VBool x, VBool y => Bool.eqb x y
  | VNum x, VNum y => x =? y
  | VStr x, VStr y => String.eqb x y
  | _, _ => false
  end.

(** [Math.ceil(a / b)] for integers [a >= 0] and [b >= 1]. *)
Definition ceil_div (a b : Z) : Z :=
  if a mod b =? 0 then a / b else a / b + 1.

(** ASCII lower-casing, the case folding of the regular-expression option
    [i]. *)
Definition lower (c : ascii) : ascii :=
  let n := code c in
  if (65 <=? n) && (n <=? 90) then ascii_of_N (Z.to_N (n + 32)) else c.

End Js.
Export Js.

Abbreviation Doc := (gmap string value).

(** ** Regular expressions: the patterns of literals and [.]

    What a pattern made of literal characters and the wildcard [.] matches,
    as every pattern language of a store has it; a pattern that uses any
    other metacharacter is outside this fragment and [compile] gives [None]
    for it.  The store's own language is a parameter of the handlers. *)

Module Regex.

Inductive atom :=
  | Lit (c : ascii)
  | AnyChar.

Definition metachar (c : ascii) : bool :=
  existsb (Ascii.eqb c)
    ["\"; "^"; "$"; "."; "|"; "?"; "*"; "+"; "("; ")"; "["; "]"; "{"; "}"]%char.

Fixpoint compile (p : string) : option (list atom) :=
  match p with
  | EmptyString => Some []
  | String c r =>
      if Ascii.eqb c "." then cons AnyChar <$> compile r
      else if metachar c then None
      else cons (Lit c) <$> compile r
  end.

(** One atom against one character; [ci] is the option [i].  The wildcard
    matches every character but a line feed. *)
Definition atom_match (ci : bool) (a : atom) (c : ascii) : bool :=
  match a with
  | Lit x => if ci then Ascii.eqb (lower x) (lower c) else Ascii.eqb x c
  | AnyChar => negb (Ascii.eqb c "010")
  end.

(** The pattern matches a prefix of [s]. *)
Fixpoint match_here (ci : bool) (r : list atom) (s : string) : bool :=
  match r, s with
  | [], _ => true
  | a :: r', String c s' => atom_match ci a c && match_here ci r' s'
  | _ :: _, EmptyString => false
  end.

(** An unanchored pattern matches when it matches at some position. *)
Fixpoint search (ci : bool) (r : list atom) (s : string) : bool :=
  match_here ci r s ||
  match s with
  | String _ s' => search ci r s'
  | EmptyString => false
  end.

End Regex.

(** ** Collections *)

Module Db.

Record Store := {
  properties : list Doc;
  users : list Doc
}.

Definition has_id (id : string) (d : Doc) : bool := is_str id (field d "_id").

(** [Model.findById(id)]: the first document with that [_id], or [null]. *)
Definition findById (id : string) (c : list Doc) : option Doc :=
  List.find (has_id id) c.

(** [doc.save()] of a document read from the collection: the stored
    document with that [_id] is replaced. *)
Fixpoint replace_first (id : string) (d' : Doc) (c : list Doc) : list Doc :=
  match c with
  | [] => []
  | d :: r => if has_id id d then d' :: r else d :: replace_first id d' r
  end.

(** The fields [ks] of [d] that [d] has. *)
Definition project (ks : list string) (d : Doc) : Doc :=
  foldr (fun k o => match d !! k with Some v => <[k := v]> o | None => o end) ∅ ks.

(** [.populate('owner', 'name email phone')]: the owner reference is
    replaced by the selected fields of the user it names (with its [_id]),
    or by [null] when there is no such user. *)
Definition populate_owner (us : list Doc) (p : Doc) : Doc :=
  match p !! "owner" with
  | Some (VStr uid) =>
      <["owner" := match findById uid us with
                   | Some u => VObj (project ["_id"; "name"; "email"; "phone"] u)
                   | None => VNull
                   end]> p
  | _ => p
  end.

(** [cursor.skip(sk).limit(lim)] on a list of results. *)
Definition paginate (sk lim : Z) (l : list Doc) : list Doc :=
  take (Z.to_nat lim) (drop (Z.to_nat sk) l).

End Db.
Export Db.

Record Response := {
  status : Z;
  body : Doc
}.

(** [res.status(st).json(o)]; [res.json(o)] is [json 200 o]. *)
Definition json (st : Z) (o : Doc) : Response := {| status := st; body := o |}.

Definition failure (st : Z) (message : string) : Response :=
  json st (obj [("success", VBool false); ("message", VStr message)]).

(** ** routes/properties.js *)

Module Properties.

(** The criteria the search handler puts in a filter object. *)
Inductive criterion :=
  | EqBool (b : bool)                        (* field: b *)
  | EqStr (s : string)                       (* field: s *)
  | Matches (pattern options : string)         (* field: {$regex, $options} *)
  | Range (gte lte : option Z)               (* field: {$gte, $lte} *)
  | Text (s : string).                       (* $text: {$search: s} *)

(** A filter object, as the sequence of its keys with their criteria in the
    order of assignment (the handler assigns each key at most once). *)
Abbreviation Filter := (list (string * criterion)).

(** What the handlers leave to the store's query engine: the pattern
    language of [$regex] ([regex pattern options] is the test the pattern
    stands for, or [None] when the store refuses the pattern), the full-text
    match of [$text] and the ordering of [.sort()]. *)
Record Engine := {
  regex : string -> string -> option (string -> bool);
  text_search : string -> Doc -> bool;
  sort_docs : string -> Z -> list Doc -> list Doc
}.

(** [req.query], with string parameters. *)
Record Query := {
  q_page : option string;
  q_limit : option string;
  q_location : option string;
  q_type : option string;
  q_bhk : option string;
  q_status : option string;
  q_minPrice : option string;
  q_maxPrice : option string;
  q_search : option string;
  q_sortBy : option string;
  q_sortOrder : option string
}.

(** A query parameter as a value: [undefined] when absent. *)
Definition param (o : option string) : value := from_option VStr VUndef o.

Definition set_location (location : option string) (f : Filter) : Filter :=
  if truthy (param location)
  then f ++ [("location", Matches (default "" location) "i")] else f.

(** [if (x && x !== 'all') filter.key = x]. *)
Definition set_unless_all (key : string) (x : option string) (f : Filter) : Filter :=
  if truthy (param x) && negb (is_str "all" (param x))
  then f ++ [(key, EqStr (default "" x))] else f.

Definition set_status (status : option string) (f : Filter) : Filter :=
  if truthy (param status) then f ++ [("status", EqStr (default "" status))] else f.

(** A bound of the price range: absent when the parameter is falsy,
    [parseInt] of it otherwise.  The outer [None] is a bound that parses to
    [NaN], a request that is not modelled. *)
Definition bound (x : option string) : option (option Z) :=
  if truthy (param x) then Some <$> parseInt (param x) else Some None.

Definition set_price (minPrice maxPrice : option string) (f : Filter) : option Filter :=
  if truthy (param minPrice) || truthy (param maxPrice) then
    gte ← bound minPrice;
    lte ← bound maxPrice;
    Some (f ++ [("price", Range gte lte)])
  else Some f.

Definition set_text (search : option string) (f : Filter) : Filter :=
  if truthy (param search) then f ++ [("$text", Text (default "" search))] else f.

Definition build_filter (q : Query) : option Filter :=
  let filter := [("isApproved", EqBool true); ("isActive", EqBool true)] in
  let filter := set_location (q_location q) filter in
  let filter := set_unless_all "type" (q_type q) filter in
  let filter := set_unless_all "bhk" (q_bhk q) filter in
  let filter := set_status (q_status q) filter in
  filter ← set_price (q_minPrice q) (q_maxPrice q) filter;
  Some (set_text (q_search q) filter).

(** One key of a filter on one document (fields of documents are scalars). *)
Definition holds (E : Engine) (d : Doc) (kc : string * criterion) : bool :=
  match kc.2 with
  | EqBool b => match field d kc.1 with VBool b' => Bool.eqb b b' | _ => false end
  | EqStr s => is_str s (field d kc.1)
  | Matches pattern options =>
      match regex E pattern options, field d kc.1 with
      | Some test, VStr s => test s
      | _, _ => false
      end
  | Range gte lte =>
      match field d kc.1 with
      | VNum p => from_option (fun g => g <=? p) true gte
                  && from_option (fun l => p <=? l) true lte
      | _ => false
      end
  | Text s => text_search E s d
  end.

(** The keys of a filter object hold together. *)
Definition matches (E : Engine) (f : Filter) (d : Doc) : bool :=
  forallb (holds E d) f.

(** The store takes a filter when it accepts every pattern in it. *)
Definition accepted (E : Engine) (f : Filter) : bool :=
  forallb (fun kc : string * criterion =>
             match kc.2 with
             | Matches pattern options =>
                 match regex E pattern options with Some _ => true | None => false end
             | _ => true
             end) f.

(** [Property.find(filter)], and the documents [countDocuments(filter)]
    counts: [None] when the store refuses the filter and the query throws. *)
Definition find (E : Engine) (f : Filter) (c : list Doc) : option (list Doc) :=
  if accepted E f then Some (List.filter (matches E f) c) else None.

Definition page_of (q : Query) : value := from_option VStr (VNum 1) (q_page q).
Definition limit_of (q : Query) : value := from_option VStr (VNum 12) (q_limit q).

(** GET /api/properties.  The result is [None] for the requests that are
    not modelled: [page] or [limit] not an integer at least 1, a price bound
    that is [NaN], a [location] the store refuses as a pattern (the query
    throws and the [catch] answers). *)
Definition search (E : Engine) (st : Store) (q : Query) : option Response :=
  let page := page_of q in
  let limit := limit_of q in
  let sortBy := default "createdAt" (q_sortBy q) in
  let sortOrder := default "desc" (q_sortOrder q) in
  filter ← build_filter q;
  let sort := (sortBy, if String.eqb sortOrder "desc" then -1 else 1) in
  pg ← toNumber page;
  lim ← toNumber limit;
  if (1 <=? pg) && (1 <=? lim) then
    found ← find E filter (properties st);
    let results :=
      populate_owner (users st)
        <$> paginate ((pg - 1) * lim) (lim * 1) (sort_docs E sort.1 sort.2 found) in
    let total := Z.of_nat (length found) in
    currentPage ← parseInt page;
    Some (json 200 (obj [
      ("success", VBool true);
      ("data", VObj (obj [
         ("properties", VArr (VObj <$> results));
         ("pagination", VObj (obj [
            ("currentPage", VNum currentPage);
            ("totalPages", VNum (ceil_div total lim));
            ("totalProperties", VNum total);
            ("hasNext", VBool (pg <? ceil_div total lim));
            ("hasPrev", VBool (1 <? pg))]))]))]))
  else None.

(** GET /api/properties/:id.  The result is [None] when the stored [views]
    is not a number, a document that is not modelled. *)
Definition getOne (st : Store) (id : string) : option (Store * Response) :=
  match findById id (properties st) with
  | None => Some (st, failure 404 "Property not found")
  | Some stored =>
      let property := populate_owner (users st) stored in
      if negb (truthy (field property "isApproved"))
         || negb (truthy (field property "isActive"))
      then Some (st, failure 404 "Property not available")
      else
        match field property "views" with
        | VNum views =>
            (* property.views += 1; property.save() writes the changed path *)
            let property := <["views" := VNum (views + 1)]> property in
            let st' := {| properties :=
                            replace_first id (<["views" := VNum (views + 1)]> stored)
                              (properties st);
                          users := users st |} in
            Some (st', json 200 (obj [
              ("success", VBool true);
              ("data", VObj (obj [("property", VObj property)]))]))
        | _ => None
        end
  end.

Definition placeholder : string :=
  "https://images.pexels.com/photos/106399/pexels-photo-106399.jpeg?auto=compress&cs=tinysrgb&w=800".

(** The two notification functions of [utils/emailService]: each tells
    whether its promise resolves ([true]) or rejects ([false]). *)
Record Mailer := {
  sendPropertyListedEmail : Doc -> value -> value -> bool;
  sendAdminNotification : Doc -> value -> value -> bool
}.

Inductive event :=
  | ListedEmailSent
  | AdminNotificationSent
  | ErrorLogged (label : string).

(** The [try] block of the notifications, with its [catch]. *)
Definition notify (M : Mailer) (property : Doc) : list event :=
  let ownerEmail := field property "ownerEmail" in
  let ownerName := field property "ownerName" in
  let admin :=
    if sendAdminNotification M property ownerName ownerEmail
    then [AdminNotificationSent] else [ErrorLogged "Email notification error:"] in
  if truthy ownerEmail then
    if sendPropertyListedEmail M property ownerEmail ownerName
    then ListedEmailSent :: admin
    else [ErrorLogged "Email notification error:"]
  else admin.

(** [new Property(data)]: the data supplied, over the defaults of the
    schema and a fresh [_id].  The schema is declared in [models/Property],
    so its defaults are a parameter. *)
Definition newProperty (defaults : Doc) (freshId : string) (data : Doc) : Doc :=
  data ∪ <["_id" := VStr freshId]> defaults.

(** The object [propertyData] of the create handler: the body spread, then
    the four keys the handler sets. *)
Definition propertyData (user reqBody : Doc) : Doc :=
  <["images" := VArr [js_or (field reqBody "image") (VStr placeholder)]]>
    (<["isActive" := VBool true]>
      (<["isApproved" := VBool true]>
        (<["owner" := field user "_id"]> reqBody))).

(** POST /api/properties, after [adminAuth] has set [req.user] and
    [validateProperty] has let the body through. *)
Definition create (M : Mailer) (defaults : Doc) (freshId : string)
    (st : Store) (user : Doc) (reqBody : Doc) : Store * Response * list event :=
  let propertyData := propertyData user reqBody in
  let property := newProperty defaults freshId propertyData in
  let st' := {| properties := properties st ++ [property]; users := users st |} in
  let populated := populate_owner (users st') property in
  let log := notify M populated in
  (st',
   json 201 (obj [
     ("success", VBool true);
     ("message", VStr "Property listed successfully and is now live on the website!");
     ("data", VObj (obj [("property", VObj populated)]))]),
   log).


Fixpoint remove_first (id : string) (c : list Doc) : list Doc :=
  match c with
  | [] => []
  | d :: r => if has_id id d then r else d :: remove_first id r
  end.

(** DELETE /api/properties/:id, after [adminAuth]. *)
Definition remove (st : Store) (id : string) : Store * Response :=
  match findById id (properties st) with
  | None => (st, failure 404 "Property not found")
  | Some _ =>
      ({| properties := remove_first id (properties st); users := users st |},
       json 200 (obj [("success", VBool true);
                      ("message", VStr "Property deleted successfully")]))
  end.

(** GET /api/properties/admin/all-properties, after [adminAuth]. *)
Definition allProperties (E : Engine) (st : Store) : Response :=
  let properties :=
    populate_owner (users st) <$> sort_docs E "createdAt" (-1) (properties st) in
  json 200 (obj [("success", VBool true);
                 ("data", VObj (obj [("properties", VArr (VObj <$> properties))]))]).

End Properties.

(** ** The auth router *)

Module Auth.

(** What the handlers take from [models/User], [jsonwebtoken] and
    [utils/emailService]. *)
Record Services := {
  (* the hash the model stores for a new password *)
  hashPassword : string -> string;
  (* user.comparePassword(password) *)
  comparePassword : Doc -> string -> bool;
  (* jwt.sign(payload, secret, { expiresIn }) *)
  jwt_sign : Doc -> string -> string -> string;
  (* whether the promise of sendWelcomeEmail(email, name) resolves *)
  sendWelcomeEmail : string -> string -> bool
}.

(** [User.findOne({ key: s })]. *)
Definition findOne (key s : string) (c : list Doc) : option Doc :=
  List.find (fun d => is_str s (field d key)) c.

Definition findByRef (ref : value) (c : list Doc) : option Doc :=
  match ref with
  | VStr id => findById id c
  | _ => None
  end.

(** [user.save()] of a document read from the collection. *)
Definition save (user : Doc) (c : list Doc) : list Doc :=
  match field user "_id" with
  | VStr id => replace_first id user c
  | _ => c
  end.

(** [.select('-password')]. *)
Definition select_without (k : string) (d : Doc) : Doc := delete k d.

Definition with_users (st : Store) (us : list Doc) : Store :=
  {| properties := properties st; users := us |}.

(** POST /api/auth/register, after [validateUserRegistration]; the body has
    strings for [name], [phone] and [password], and [email] is optional.
    The third component is what the handler writes to the error console. *)
Definition register (S : Services) (secret : string) (defaults : Doc)
    (freshId : string) (st : Store)
    (name : string) (email : option string) (phone password : string)
    : Store * Response * list string :=
  match findOne "phone" phone (users st) with
  | Some _ => (st, failure 400 "User already exists with this phone number", [])
  | None =>
      let emailv := from_option VStr VUndef email in
      match (if truthy emailv then findOne "email" (default "" email) (users st)
             else None) with
      | Some _ => (st, failure 400 "User already exists with this email address", [])
      | None =>
          let user :=
            obj [("name", VStr name);
                 ("email", js_or emailv VNull);
                 ("phone", VStr phone);
                 ("password", VStr (hashPassword S password))]
            ∪ <["_id" := VStr freshId]> defaults in
          let st' := with_users st (users st ++ [user]) in
          let token :=
            jwt_sign S (obj [("userId", field user "_id")]) secret "7d" in
          let log :=
            if truthy emailv && negb (sendWelcomeEmail S (default "" email) name)
            then ["Welcome email error:"] else [] in
          (st', json 201 (obj [
             ("success", VBool true);
             ("message", VStr "Registration successful! Welcome to Vasai Properties.");
             ("data", VObj (obj [
                ("user", VObj (obj [
                   ("id", field user "_id");
                   ("name", field user "name");
                   ("email", js_or (field user "email") VNull);
                   ("phone", field user "phone");
                   ("createdAt", field user "createdAt")]));
                ("token", VStr token)]))]),
           log)
      end
  end.

(** The user object of the two login responses. *)
Definition login_view (user : Doc) : Doc :=
  obj [("id", field user "_id");
       ("name", field user "name");
       ("email", js_or (field user "email") VNull);
       ("role", field user "role");
       ("phone", field user "phone");
       ("createdAt", field user "createdAt");
       ("lastLogin", field user "lastLogin")].

(** POST /api/auth/login, after [validateUserLogin]. *)
Definition login (S : Services) (secret : string) (now : Z) (st : Store)
    (phone password : string) : Store * Response :=
  match findOne "phone" phone (users st) with
  | None => (st, failure 401 "Invalid phone number or password")
  | Some user =>
      if negb (truthy (field user "isActive")) then
        (st, failure 401 "Account is deactivated. Please contact support.")
      else if negb (comparePassword S user password) then
        (st, failure 401 "Invalid phone number or password")
      else
        let user := <["lastLogin" := VNum now]> user in
        let st' := with_users st (save user (users st)) in
        let token :=
          jwt_sign S (obj [("userId", field user "_id")]) secret "7d" in
        (st', json 200 (obj [
           ("success", VBool true);
           ("message", VStr "Login successful! Welcome back.");
           ("data", VObj (obj [("user", VObj (login_view user));
                               ("token", VStr token)]))]))
  end.

(** POST /api/auth/admin/login, after [validateUserLogin]. *)
Definition adminLogin (S : Services) (secret : string) (now : Z) (st : Store)
    (phone password : string) : Store * Response :=
  match findOne "phone" phone (users st) with
  | None => (st, failure 401 "Invalid admin credentials")
  | Some user =>
      if negb (is_str "admin" (field user "role")) then
        (st, failure 401 "Invalid admin credentials")
      else if negb (comparePassword S user password) then
        (st, failure 401 "Invalid admin credentials")
      else
        let user := <["lastLogin" := VNum now]> user in
        let st' := with_users st (save user (users st)) in
        let token :=
          jwt_sign S (obj [("userId", field user "_id"); ("role", field user "role")])
            secret "7d" in
        (st', json 200 (obj [
           ("success", VBool true);
           ("message", VStr "Admin login successful!");
           ("data", VObj (obj [("user", VObj (login_view user));
                               ("token", VStr token)]))]))
  end.

(** Modelled from the spec: the serialisation of a User document in a
    response body, which [models/User] (not among the sources) decides.  The
    spec has "password field is never serialized in API responses" and the
    public projection as "a user record view with the password hash field
    removed": the document is serialised with the fields it holds but
    [password]; [null] stands for no document. *)
Definition toJSON (d : option Doc) : value :=
  from_option (fun u : Doc => VObj (delete "password" u)) VNull d.

(** GET /api/auth/me, after [auth] has set [req.user]. *)
Definition me (st : Store) (reqUser : Doc) : Response :=
  let user := select_without "password" <$> findByRef (field reqUser "_id") (users st) in
  json 200 (obj [("success", VBool true);
                 ("data", VObj (obj [("user", toJSON user)]))]).

(** The store keeps [phone] unique (the register handler answers its
    duplicate-key error): a save is refused when another user has the phone
    of the saved document. *)
Definition phone_taken (user : Doc) (c : list Doc) : bool :=
  existsb (fun u : Doc => negb (scalar_eq (field u "_id") (field user "_id"))
                          && scalar_eq (field u "phone") (field user "phone")) c.

(** PUT /api/auth/profile, after [auth].  When the user is not found the
    assignment or the [save] on [null] throws, and when the save is refused
    it throws too; the [catch] answers. *)
Definition updateProfile (st : Store) (reqUser : Doc) (reqBody : Doc)
    : Store * Response :=
  let name := field reqBody "name" in
  let phone := field reqBody "phone" in
  match findByRef (field reqUser "_id") (users st) with
  | None => (st, failure 500 "Server error while updating profile")
  | Some user =>
      let user := if truthy name then <["name" := name]> user else user in
      let user := if truthy phone then <["phone" := phone]> user else user in
      if phone_taken user (users st) then
        (st, failure 500 "Server error while updating profile")
      else
        let st' := with_users st (save user (users st)) in
        (st', json 200 (obj [
           ("success", VBool true);
           ("message", VStr "Profile updated successfully");
           ("data", VObj (obj [("user", toJSON (Some user))]))]))
  end.

End Auth.

(** ** Instances and sample data used in the examples *)

Module Samples.
Import Properties Auth.

Definition num_key (k : string) (d : Doc) : Z :=
  match field d k with VNum z => z | _ => 0 end.

Fixpoint insert_by (k : string) (dir : Z) (d : Doc) (l : list Doc) : list Doc :=
  match l with
  | [] => [d]
  | x :: r =>
      if dir * num_key k d <=? dir * num_key k x then d :: l
      else x :: insert_by k dir d r
  end.

(** An engine that orders on numeric fields, knows the patterns made of
    literal characters and [.], and has no text index. *)
Definition sort_numeric (k : string) (dir : Z) (l : list Doc) : list Doc :=
  foldr (insert_by k dir) [] l.

Definition fragment_regex (pattern options : string) : option (string -> bool) :=
  Regex.search (existsb (Ascii.eqb "i") (String.list_ascii_of_string options))
    <$> Regex.compile pattern.

Definition numericEngine : Engine :=
  {| regex := fragment_regex;
     text_search := fun _ _ => false;
     sort_docs := sort_numeric |}.

Definition listing (id type location : string) (price views : Z)
    (approved : bool) : Doc :=
  obj [("_id", VStr id); ("owner", VStr "u1"); ("type", VStr type);
       ("bhk", VStr "2"); ("status", VStr "sale");
       ("location", VStr location); ("price", VNum price);
       ("isApproved", VBool approved); ("isActive", VBool true);
       ("views", VNum views); ("createdAt", VNum views)].

Definition account (id phone role hash : string) (active : bool) : Doc :=
  obj [("_id", VStr id); ("name", VStr "Asha"); ("phone", VStr phone);
       ("email", VNull); ("role", VStr role); ("isActive", VBool active);
       ("password", VStr hash); ("createdAt", VNum 1)].

Definition store0 : Store :=
  {| properties := [listing "p1" "flat" "abc" 100 7 true;
                    listing "p2" "shop" "Vasai West" 250 0 false];
     users := [account "u1" "2222222222" "admin" "h:smitaa" false;
               account "u2" "9999999999" "user" "h:secret" true] |}.

(** Services whose hash of [p] is [h:p]. *)
Definition services0 : Services :=
  {| hashPassword := fun p => "h:" +:+ p;
     comparePassword := fun u p => is_str ("h:" +:+ p) (field u "password");
     jwt_sign := fun payload secret expiresIn => "jwt";
     sendWelcomeEmail := fun _ _ => false |}.

Definition noQuery : Query :=
  {| q_page := None; q_limit := None; q_location := None; q_type := None;
     q_bhk := None; q_status := None; q_minPrice := None; q_maxPrice := None;
     q_search := None; q_sortBy := None; q_sortOrder := None |}.

(** Twenty-five approved flats, created at times 1 to 25. *)
Definition store25 : Store :=
  {| properties :=
       (fun i => listing "p" "flat" "Vasai" 100 (Z.of_nat i) true) <$> seq 1 25;
     users := [] |}.

Definition byPage (page limit : string) : Query :=
  {| q_page := Some page; q_limit := Some limit; q_location := None;
     q_type := None; q_bhk := None; q_status := None; q_minPrice := None;
     q_maxPrice := None; q_search := None; q_sortBy := None;
     q_sortOrder := None |}.

Definition byType (type bhk : string) : Query :=
  {| q_page := None; q_limit := None; q_location := None;
     q_type := Some type; q_bhk := Some bhk; q_status := None;
     q_minPrice := None; q_maxPrice := None; q_search := None;
     q_sortBy := None; q_sortOrder := None |}.

Definition byLocation (x : string) : Query :=
  {| q_page := None; q_limit := None; q_location := Some x; q_type := None;
     q_bhk := None; q_status := None; q_minPrice := None; q_maxPrice := None;
     q_search := None; q_sortBy := None; q_sortOrder := None |}.

End Samples.

(** ** The search filter in the words of the specification *)

Module SearchSpec.
Import Properties.

Fixpoint lower_str (s : string) : string :=
  match s with
  | String c r => String (lower c) (lower_str r)
  | EmptyString => EmptyString
  end.

(** [p] occurs in [s] when letter case is ignored. *)
Definition ci_substring (p s : string) : Prop :=
  ∃ a b, lower_str s = a +:+ lower_str p +:+ b.

Fixpoint prefixb (p s : string) : bool :=
  match p, s with
  | EmptyString, _ => true
  | String x p', String c s' => Ascii.eqb x c && prefixb p' s'
  | String _ _, EmptyString => false
  end.

Fixpoint substringb (p s : string) : bool :=
  prefixb p s ||
  match s with
  | String _ s' => substringb p s'
  | EmptyString => false
  end.

(** The decision of [ci_substring]. *)
Definition ci_substringb (p s : string) : bool :=
  substringb (lower_str p) (lower_str s).

(** A pattern without metacharacters. *)
Fixpoint literal (p : string) : bool :=
  match p with
  | String c r => negb (Regex.metachar c) && literal r
  | EmptyString => true
  end.

(** A query parameter that is given and not empty. *)
Definition given (o : option string) (x : string) : Prop := o = Some x ∧ x ≠ "".

(** A stored property passes every filter the query supplies. *)
Definition satisfies (E : Engine) (q : Query) (p : Doc) : Prop :=
  field p "isApproved" = VBool true ∧
  field p "isActive" = VBool true ∧
  (∀ x, given (q_location q) x →
     ∃ test s, regex E x "i" = Some test ∧ field p "location" = VStr s
               ∧ test s = true) ∧
  (∀ x, given (q_type q) x → x ≠ "all" → field p "type" = VStr x) ∧
  (∀ x, given (q_bhk q) x → x ≠ "all" → field p "bhk" = VStr x) ∧
  (∀ x, given (q_status q) x → field p "status" = VStr x) ∧
  (∀ x, given (q_minPrice q) x →
     ∃ lo price, parseInt_str x = Some lo ∧ field p "price" = VNum price
                 ∧ lo ≤ price) ∧
  (∀ x, given (q_maxPrice q) x →
     ∃ hi price, parseInt_str x = Some hi ∧ field p "price" = VNum price
                 ∧ price ≤ hi) ∧
  (∀ x, given (q_search q) x → text_search E x p = true).

(** The store's pattern language agrees with the fragment of literals and
    [.] on the patterns of that fragment, under the option [i]. *)
Definition knows_fragment (E : Engine) : Prop :=
  ∀ x r, Regex.compile x = Some r → regex E x "i" = Some (Regex.search true r).

(** The documents found, in the order the query asks for. *)
Definition found_sorted (E : Engine) (q : Query) (found : list Doc) : list Doc :=
  sort_docs E (default "createdAt" (q_sortBy q))
    (if String.eqb (default "desc" (q_sortOrder q)) "desc" then -1 else 1)
    found.

(** A numeric query parameter [o] asks for [n]: it is absent and [n] is the
    default, or it is a decimal integer of value [n]. *)
Definition asks_for (o : option string) (dflt n : Z) : Prop :=
  (o = None ∧ n = dflt) ∨ (∃ s, o = Some s ∧ decimal_int s = Some n).

(** The fields an owner is populated with. *)
Definition owner_fields : list string := ["_id"; "name"; "email"; "phone"].

(** [o] has the owner fields of [u] that [u] has, and no other field. *)
Definition owner_view (o u : Doc) : Prop :=
  ∀ k, o !! k = if bool_decide (k ∈ owner_fields) then u !! k else None.

(** The envelope of a search answer. *)
Definition search_answer (results : list Doc) (pagination : Doc) : Response :=
  json 200 (obj [
    ("success", VBool true);
    ("data", VObj (obj [
       ("properties", VArr (VObj <$> results));
       ("pagination", VObj pagination)]))]).

End SearchSpec.

(** ** createAdmin.js *)

Module Seed.
Import Auth.

(** [s.includes(sub)]. *)
Definition includes (s sub : string) : bool := SearchSpec.substringb sub s.

(** [s.endsWith(suf)]: some suffix of [s] is [suf]. *)
Fixpoint endsWith (s suf : string) : bool :=
  String.eqb s suf ||
  match s with
  | String _ r => endsWith r suf
  | EmptyString => false
  end.

(** The connection string the script connects with: the name of the
    database is appended when the configured string does not contain it. *)
Definition normalizeUri (mongoUri : string) : string :=
  if negb (includes mongoUri "vasaiProperty") then
    if endsWith mongoUri "/" then mongoUri +:+ "vasaiProperty"
    else mongoUri +:+ "/vasaiProperty"
  else mongoUri.

Inductive outcome :=
  | AdminExists
  | AdminCreated.

Definition adminPhone : string := "2222222222".
Definition adminPassword : string := "smitaa".

(** The body of [createAdmin] once connected: [bcryptHash] is
    [bcrypt.hash], and the document is made by the user model as in the
    register handler. *)
Definition createAdmin (S : Services) (bcryptHash : string -> Z -> string)
    (defaults : Doc) (freshId : string) (st : Store) : Store * outcome :=
  let phone := adminPhone in
  let plainPassword := adminPassword in
  match findOne "phone" phone (users st) with
  | Some _ => (st, AdminExists)
  | None =>
      let hashedPassword := bcryptHash plainPassword 10 in
      let admin :=
        obj [("name", VStr "Super Admin");
             ("phone", VStr phone);
             ("password", VStr (hashPassword S hashedPassword));
             ("role", VStr "admin");
             ("isActive", VBool true)]
        ∪ <["_id" := VStr freshId]> defaults in
      (with_users st (users st ++ [admin]), AdminCreated)
  end.

End Seed.

(** ** Queries that differ in some parameters *)

Module Vary.
Import Properties.

Definition with_type_bhk (q : Query) (type bhk : option string) : Query :=
  {| q_page := q_page q; q_limit := q_limit q; q_location := q_location q;
     q_type := type; q_bhk := bhk; q_status := q_status q;
     q_minPrice := q_minPrice q; q_maxPrice := q_maxPrice q;
     q_search := q_search q; q_sortBy := q_sortBy q;
     q_sortOrder := q_sortOrder q |}.

(** A parameter that sets no filter on [type] or [bhk]. *)
Definition no_filter (o : option string) : Prop :=
  o = None ∨ o = Some "" ∨ o = Some "all".

Definition with_prices (q : Query) (minPrice maxPrice : option string) : Query :=
  {| q_page := q_page q; q_limit := q_limit q; q_location := q_location q;
     q_type := q_type q; q_bhk := q_bhk q; q_status := q_status q;
     q_minPrice := minPrice; q_maxPrice := maxPrice;
     q_search := q_search q; q_sortBy := q_sortBy q;
     q_sortOrder := q_sortOrder q |}.

End Vary.

(** ** Documents and collections *)

Import Properties Auth SearchSpec.

Lemma field_insert_eq (d : Doc) k v : field (<[k := v]> d) k = v.
Proof. unfold field. by rewrite lookup_insert_eq. Qed.

Lemma field_insert_ne (d : Doc) k k' v :
  k ≠ k' → field (<[k := v]> d) k' = field d k'.
Proof. intros H. unfold field. by rewrite lookup_insert_ne. Qed.

Lemma lookup_populate_owner us (p : Doc) k :
  k ≠ "owner" → populate_owner us p !! k = p !! k.
Proof.
  intros Hk. unfold populate_owner.
  destruct (p !! "owner") as [[]|]; try done.
  by rewrite lookup_insert_ne.
Qed.

Lemma field_populate_owner us (p : Doc) k :
  k ≠ "owner" → field (populate_owner us p) k = field p k.
Proof. intros Hk. unfold field. by rewrite lookup_populate_owner. Qed.

(** Populating commutes with writing another field. *)
Lemma populate_owner_insert us (p : Doc) k v :
  k ≠ "owner" →
  populate_owner us (<[k := v]> p) = <[k := v]> (populate_owner us p).
Proof.
  intros Hk. unfold populate_owner. rewrite lookup_insert_ne by done.
  destruct (p !! "owner") as [[]|]; try done.
  by rewrite insert_insert_ne.
Qed.

Lemma find_split {A} (P : A → bool) (c : list A) d :
  List.find P c = Some d →
  ∃ l1 l2, c = l1 ++ d :: l2 ∧ P d = true ∧ Forall (fun x => P x = false) l1.
Proof.
  induction c as [|x c IH]; simpl; [done|].
  destruct (P x) eqn:Hx.
  - intros [= ->]. by exists [], c.
  - intros (l1 & l2 & -> & Hd & Hl)%IH.
    exists (x :: l1), l2. split_and!; [done|done|by constructor].
Qed.

Lemma find_app_first {A} (P : A → bool) l1 d l2 :
  Forall (fun x => P x = false) l1 → P d = true →
  List.find P (l1 ++ d :: l2) = Some d.
Proof.
  induction 1 as [|x l1 Hx _ IH]; simpl; intros Hd.
  - by rewrite Hd.
  - rewrite Hx. by apply IH.
Qed.

Lemma replace_first_app id d' l1 d l2 :
  Forall (fun x => has_id id x = false) l1 → has_id id d = true →
  replace_first id d' (l1 ++ d :: l2) = l1 ++ d' :: l2.
Proof.
  induction 1 as [|x l1 Hx _ IH]; simpl; intros Hd.
  - by rewrite Hd.
  - rewrite Hx. f_equal. by apply IH.
Qed.

Lemma has_id_insert id (d : Doc) k v :
  k ≠ "_id" → has_id id (<[k := v]> d) = has_id id d.
Proof. intros Hk. unfold has_id. by rewrite field_insert_ne. Qed.

Lemma project_lookup ks (d : Doc) k :
  project ks d !! k = if bool_decide (k ∈ ks) then d !! k else None.
Proof.
  induction ks as [|k0 ks IH].
  - change (project [] d) with (∅ : Doc).
    rewrite bool_decide_eq_false_2; [apply lookup_empty|apply not_elem_of_nil].
  - change (project (k0 :: ks) d)
      with (match d !! k0 with
            | Some v => <[k0 := v]> (project ks d)
            | None => project ks d
            end).
    destruct (decide (k = k0)) as [->|Hne].
    + rewrite bool_decide_eq_true_2 by apply list_elem_of_here.
      destruct (d !! k0) as [v|] eqn:Hv; [by rewrite lookup_insert_eq|].
      rewrite IH. by destruct (bool_decide (k0 ∈ ks)).
    + assert (bool_decide (k ∈ k0 :: ks) = bool_decide (k ∈ ks)) as ->.
      { apply bool_decide_ext. rewrite elem_of_cons. intuition congruence. }
      destruct (d !! k0); [by rewrite lookup_insert_ne|done].
Qed.

(** What populating does to a document whose owner is a stored user. *)
Lemma populate_owner_found us (p : Doc) uid u :
  p !! "owner" = Some (VStr uid) → findById uid us = Some u →
  ∃ o : Doc, populate_owner us p !! "owner" = Some (VObj o) ∧ owner_view o u.
Proof.
  intros Hp Hu. unfold populate_owner. rewrite Hp, Hu, lookup_insert_eq.
  eexists. split; [reflexivity|]. intros k. apply project_lookup.
Qed.


(** ** GET /api/properties/:id *)

Section GetOne.
Variable st : Store.
Variable id : string.

Lemma getOne_missing :
  findById id (properties st) = None →
  getOne st id = Some (st, failure 404 "Property not found").
Proof. intros H. unfold getOne. by rewrite H. Qed.

Lemma getOne_hidden stored :
  findById id (properties st) = Some stored →
  truthy (field stored "isApproved") && truthy (field stored "isActive") = false →
  getOne st id = Some (st, failure 404 "Property not available").
Proof.
  intros H Hvis. unfold getOne. rewrite H. simpl.
  rewrite !field_populate_owner by done.
  rewrite <- negb_andb, Hvis. done.
Qed.

Lemma getOne_visible stored n :
  findById id (properties st) = Some stored →
  truthy (field stored "isApproved") && truthy (field stored "isActive") = true →
  field stored "views" = VNum n →
  getOne st id =
    Some ({| properties :=
               replace_first id (<["views" := VNum (n + 1)]> stored) (properties st);
             users := users st |},
          json 200 (obj [
            ("success", VBool true);
            ("data", VObj (obj [("property",
               VObj (<["views" := VNum (n + 1)]> (populate_owner (users st) stored)))]))])).
Proof.
  intros H Hvis Hn. unfold getOne. rewrite H. simpl.
  rewrite !field_populate_owner by done.
  rewrite <- negb_andb, Hvis, Hn. done.
Qed.

(** A 200 answer comes from a stored, visible document with a numeric
    counter. *)
Lemma getOne_200_inv st1 r1 :
  getOne st id = Some (st1, r1) → status r1 = 200 →
  ∃ stored n,
    findById id (properties st) = Some stored ∧
    truthy (field stored "isApproved") && truthy (field stored "isActive") = true ∧
    field stored "views" = VNum n.
Proof.
  unfold getOne. destruct (findById id (properties st)) as [stored|] eqn:H; simpl.
  2: { intros [= <- <-]. done. }
  rewrite !field_populate_owner by done. rewrite <- negb_andb.
  destruct (truthy (field stored "isApproved") && truthy (field stored "isActive")) eqn:Hvis;
    simpl.
  2: { intros [= <- <-]. done. }
  destruct (field stored "views") eqn:Hn; try done.
  intros _ _. by exists stored, z.
Qed.

End GetOne.

(** C1 (as the code has it): a GetOne whose id resolves to no property and a
    GetOne whose property is not both approved and active are both answered
    404 with [success: false] and leave the store as it is; the first
    carries the message "Property not found", the second "Property not
    available". *)
Theorem getOne_not_found st id :
  (findById id (properties st) = None →
   getOne st id = Some (st, failure 404 "Property not found")) ∧
  (∀ stored,
     findById id (properties st) = Some stored →
     truthy (field stored "isApproved") && truthy (field stored "isActive") = false →
     getOne st id = Some (st, failure 404 "Property not available")) ∧
  status (failure 404 "Property not found") = 404 ∧
  status (failure 404 "Property not available") = 404 ∧
  field (body (failure 404 "Property not found")) "success" = VBool false ∧
  field (body (failure 404 "Property not available")) "success" = VBool false.
Proof.
  split_and!; try done.
  - apply getOne_missing.
  - apply getOne_hidden.
Qed.

Lemma getOne_not_found_witness :
  getOne Samples.store0 "nope" = Some (Samples.store0, failure 404 "Property not found") ∧
  getOne Samples.store0 "p2"
    = Some (Samples.store0, failure 404 "Property not available").
Proof.
  split.
  - apply (proj1 (getOne_not_found Samples.store0 "nope")). reflexivity.
  - apply (proj1 (proj2 (getOne_not_found Samples.store0 "p2"))
             (Samples.listing "p2" "shop" "Vasai West" 250 0 false));
      reflexivity.
Defined.

(** C1 (as stated) fails: for an id that resolves to nothing and for the id
    of a stored, unapproved property the two not-found messages differ. *)
Lemma getOne_messages_differ :
  findById "nope" (properties Samples.store0) = None ∧
  (∃ stored, findById "p2" (properties Samples.store0) = Some stored
             ∧ field stored "isApproved" = VBool false) ∧
  ∃ r1 r2,
    getOne Samples.store0 "nope" = Some (Samples.store0, r1) ∧
    getOne Samples.store0 "p2" = Some (Samples.store0, r2) ∧
    field (body r1) "message" = VStr "Property not found" ∧
    field (body r2) "message" = VStr "Property not available" ∧
    field (body r1) "message" ≠ field (body r2) "message".
Proof.
  split; [reflexivity|]. split.
  - eexists. split; reflexivity.
  - exists (failure 404 "Property not found"), (failure 404 "Property not available").
    split_and!; try reflexivity. vm_compute. discriminate.
Qed.

(** C7: a GetOne answered 200 found a stored property with a numeric view
    counter [n]; afterwards that document is stored with [views = n + 1] and
    every other field as before, at the same place in the collection, and
    all other documents and the users are unchanged.  The answer carries the
    property with the new counter, with every field but [views] and [owner]
    as stored, and with its owner projected: an object with the [_id],
    [name], [email] and [phone] of the user the stored owner names and no
    other field, or [null] when there is no such user.  A second GetOne of
    the same id then succeeds too and leaves [views = n + 2]. *)
Theorem getOne_counts_one_view st id st1 r1 :
  getOne st id = Some (st1, r1) → status r1 = 200 →
  ∃ l1 stored l2 n (answered : Doc),
    properties st = l1 ++ stored :: l2 ∧
    findById id (properties st) = Some stored ∧
    field stored "views" = VNum n ∧
    properties st1 = l1 ++ <["views" := VNum (n + 1)]> stored :: l2 ∧
    findById id (properties st1) = Some (<["views" := VNum (n + 1)]> stored) ∧
    (∀ k, k ≠ "views" → (<["views" := VNum (n + 1)]> stored) !! k = stored !! k) ∧
    users st1 = users st ∧
    r1 = json 200 (obj [
           ("success", VBool true);
           ("data", VObj (obj [("property", VObj answered)]))]) ∧
    answered !! "views" = Some (VNum (n + 1)) ∧
    (∀ k, k ≠ "views" → k ≠ "owner" → answered !! k = stored !! k) ∧
    (∀ uid u, stored !! "owner" = Some (VStr uid) →
       findById uid (users st) = Some u →
       ∃ o : Doc,
         answered !! "owner" = Some (VObj o) ∧
         ∀ k, o !! k = if bool_decide (k ∈ ["_id"; "name"; "email"; "phone"])
                       then u !! k else None) ∧
    (∀ uid, stored !! "owner" = Some (VStr uid) →
       findById uid (users st) = None → answered !! "owner" = Some VNull) ∧
    ∃ st2 r2,
      getOne st1 id = Some (st2, r2) ∧ status r2 = 200 ∧
      properties st2 = l1 ++ <["views" := VNum (n + 2)]> stored :: l2 ∧
      findById id (properties st2) = Some (<["views" := VNum (n + 2)]> stored) ∧
      users st2 = users st.
Proof.
  intros Hget Hok.
  destruct (getOne_200_inv _ _ _ _ Hget Hok) as (stored & n & Hfind & Hvis & Hn).
  rewrite (getOne_visible _ _ _ _ Hfind Hvis Hn) in Hget.
  injection Hget as <- <-.
  destruct (find_split _ _ _ Hfind) as (l1 & l2 & Hc & Hid & Hl1).
  set (stored1 := <["views" := VNum (n + 1)]> stored).
  assert (Hid1 : has_id id stored1 = true) by (unfold stored1; by rewrite has_id_insert).
  assert (Hrep : replace_first id stored1 (properties st) = l1 ++ stored1 :: l2)
    by (rewrite Hc; by apply replace_first_app).
  assert (Hfind1 : findById id (l1 ++ stored1 :: l2) = Some stored1)
    by (by apply find_app_first).
  exists l1, stored, l2, n,
    (<["views" := VNum (n + 1)]> (populate_owner (users st) stored)).
  simpl. rewrite Hrep.
  split_and!; try done.
  { intros k Hk. unfold stored1. by rewrite lookup_insert_ne. }
  { by rewrite lookup_insert_eq. }
  { intros k Hk Ho. by rewrite lookup_insert_ne, lookup_populate_owner. }
  { intros uid u Hs Hu. rewrite lookup_insert_ne by done.
    by apply (populate_owner_found (users st) stored uid u). }
  { intros uid Hs Hu. rewrite lookup_insert_ne by done.
    unfold populate_owner. by rewrite Hs, Hu, lookup_insert_eq. }
  eexists _, _. split.
  { apply (getOne_visible _ _ stored1 (n + 1)); simpl.
    - done.
    - unfold stored1. by rewrite !field_insert_ne.
    - unfold stored1. by rewrite field_insert_eq. }
  simpl.
  assert (Hst2 : <["views" := VNum (n + 1 + 1)]> stored1 = <["views" := VNum (n + 2)]> stored).
  { unfold stored1. rewrite insert_insert_eq. do 2 f_equal. lia. }
  rewrite Hst2.
  assert (Hrep2 : replace_first id (<["views" := VNum (n + 2)]> stored) (l1 ++ stored1 :: l2)
                  = l1 ++ <["views" := VNum (n + 2)]> stored :: l2)
    by (by apply replace_first_app).
  rewrite Hrep2. split_and!; try done.
  apply find_app_first; [done|]. by rewrite has_id_insert.
Qed.

Lemma getOne_counts_one_view_witness :
  ∃ st1 r1 (answered o : Doc),
    getOne Samples.store0 "p1" = Some (st1, r1) ∧
    r1 = json 200 (obj [
           ("success", VBool true);
           ("data", VObj (obj [("property", VObj answered)]))]) ∧
    answered !! "views" = Some (VNum 8) ∧
    answered !! "owner" = Some (VObj o) ∧
    o !! "_id" = Some (VStr "u1") ∧ o !! "name" = Some (VStr "Asha") ∧
    o !! "email" = Some VNull ∧ o !! "phone" = Some (VStr "2222222222") ∧
    o !! "password" = None ∧ o !! "role" = None ∧
    ∃ st2 r2, getOne st1 "p1" = Some (st2, r2) ∧ status r2 = 200.
Proof.
  destruct (getOne_counts_one_view Samples.store0 "p1" _ _ eq_refl eq_refl)
    as (l1 & stored & l2 & n & answered & _ & Hf & Hn & _ & _ & _ & _ & Hr & Hv & _
        & Howner & _ & st2 & r2 & Hget2 & Hok2 & _).
  assert (Hs : Some stored = Some (Samples.listing "p1" "flat" "abc" 100 7 true))
    by (rewrite <- Hf; reflexivity).
  injection Hs as Hs.
  assert (Hn7 : VNum n = VNum 7) by (rewrite <- Hn, Hs; reflexivity).
  injection Hn7 as Hn7.
  destruct (Howner "u1" (Samples.account "u1" "2222222222" "admin" "h:smitaa" false))
    as (o & Ho & Hview); [by rewrite Hs|reflexivity|].
  eexists _, _, answered, o.
  split_and!; [reflexivity|exact Hr| |exact Ho|..]; try (by rewrite Hview).
  - rewrite Hv, Hn7. reflexivity.
  - exists st2, r2. split; [exact Hget2|exact Hok2].
Defined.

(** ** POST /api/properties and PUT /api/properties/:id *)

Lemma propertyData_isApproved user (reqBody : Doc) :
  propertyData user reqBody !! "isApproved" = Some (VBool true).
Proof. unfold propertyData. by simplify_map_eq. Qed.

Lemma propertyData_isActive user (reqBody : Doc) :
  propertyData user reqBody !! "isActive" = Some (VBool true).
Proof. unfold propertyData. by simplify_map_eq. Qed.

Lemma propertyData_images user (reqBody : Doc) :
  propertyData user reqBody !! "images"
  = Some (VArr [js_or (field reqBody "image") (VStr placeholder)]).
Proof. unfold propertyData. by simplify_map_eq. Qed.

Lemma newProperty_supplied defaults freshId (data : Doc) k v :
  data !! k = Some v → newProperty defaults freshId data !! k = Some v.
Proof. intros H. unfold newProperty. by apply lookup_union_Some_l. Qed.

(** The store and the answer of a create, whatever the mailer does. *)
Lemma create_result M defaults freshId st user reqBody :
  (create M defaults freshId st user reqBody).1 =
    (let property := newProperty defaults freshId (propertyData user reqBody) in
     ({| properties := properties st ++ [property]; users := users st |},
      json 201 (obj [
        ("success", VBool true);
        ("message", VStr "Property listed successfully and is now live on the website!");
        ("data", VObj (obj [("property", VObj (populate_owner (users st) property))]))]))).
Proof. reflexivity. Qed.






Lemma propertyData_ignores_images user (reqBody : Doc) supplied :
  propertyData user (<["images" := supplied]> reqBody) = propertyData user reqBody.
Proof.
  unfold propertyData. rewrite field_insert_ne by done.
  apply map_eq. intros k.
  destruct (decide (k = "images")) as [->|]; [by rewrite !lookup_insert_eq|].
  rewrite !(lookup_insert_ne _ "images") by done.
  destruct (decide (k = "isActive")) as [->|]; [by rewrite !lookup_insert_eq|].
  rewrite !(lookup_insert_ne _ "isActive") by done.
  destruct (decide (k = "isApproved")) as [->|]; [by rewrite !lookup_insert_eq|].
  rewrite !(lookup_insert_ne _ "isApproved") by done.
  destruct (decide (k = "owner")) as [->|]; [by rewrite !lookup_insert_eq|].
  rewrite !(lookup_insert_ne _ "owner") by done.
  by rewrite lookup_insert_ne.
Qed.

(** C10: the document a create stores has, as [images], the array of one
    element that is the body's [image] when that is truthy and the
    placeholder URL otherwise; an [images] key of the body has no part in
    it. *)
Theorem create_stores_one_image M defaults freshId st user (reqBody : Doc) :
  ∃ property,
    properties (create M defaults freshId st user reqBody).1.1
      = properties st ++ [property] ∧
    property !! "images"
      = Some (VArr [if truthy (field reqBody "image")
                    then field reqBody "image" else VStr placeholder]) ∧
    ∀ supplied,
      create M defaults freshId st user (<["images" := supplied]> reqBody)
      = create M defaults freshId st user reqBody.
Proof.
  eexists. rewrite create_result. simpl. split; [reflexivity|]. split.
  - apply newProperty_supplied. apply propertyData_images.
  - intros supplied. unfold create.
    by rewrite propertyData_ignores_images.
Qed.

(** C9: whatever the two notification functions do, the create is answered
    201 with the created listing, owner populated, and the store holds the
    new document; the store and the answer are the same for every mailer.
    When a notification that is attempted fails, the error is logged. *)
Theorem create_absorbs_mail_failure M defaults freshId st user (reqBody : Doc) :
  let property := newProperty defaults freshId (propertyData user reqBody) in
  let populated := populate_owner (users st) property in
  let result := create M defaults freshId st user reqBody in
  properties result.1.1 = properties st ++ [property] ∧
  users result.1.1 = users st ∧
  status result.1.2 = 201 ∧
  body result.1.2 = obj [
    ("success", VBool true);
    ("message", VStr "Property listed successfully and is now live on the website!");
    ("data", VObj (obj [("property", VObj populated)]))] ∧
  (∀ M', (create M' defaults freshId st user reqBody).1 = result.1) ∧
  ((truthy (field populated "ownerEmail") = true ∧
    sendPropertyListedEmail M populated (field populated "ownerEmail")
      (field populated "ownerName") = false)
   ∨ sendAdminNotification M populated (field populated "ownerName")
       (field populated "ownerEmail") = false →
   ErrorLogged "Email notification error:" ∈ result.2).
Proof.
  split_and!; try reflexivity.
  intros Hfail. simpl. unfold notify.
  destruct (truthy (field _ "ownerEmail")) eqn:He;
    destruct (sendPropertyListedEmail M _ _ _) eqn:Hl;
    destruct (sendAdminNotification M _ _ _) eqn:Ha;
    try (destruct Hfail as [[? ?]|?]; congruence);
    repeat first [apply list_elem_of_here | apply list_elem_of_further].
Qed.

Lemma create_absorbs_mail_failure_witness :
  let M := {| sendPropertyListedEmail := fun _ _ _ => false;
              sendAdminNotification := fun _ _ _ => false |} in
  let result := create M ∅ "p3" Samples.store0 (Samples.account "u1" "2222222222" "admin" "h" true)
                  (obj [("type", VStr "flat"); ("ownerEmail", VStr "o@x.in")]) in
  status result.1.2 = 201 ∧
  ErrorLogged "Email notification error:" ∈ result.2.
Proof.
  intros M result.
  destruct (create_absorbs_mail_failure M ∅ "p3" Samples.store0
              (Samples.account "u1" "2222222222" "admin" "h" true)
              (obj [("type", VStr "flat"); ("ownerEmail", VStr "o@x.in")]))
    as (_ & _ & Hst & _ & _ & Hlog).
  split; [exact Hst|]. apply Hlog. right. reflexivity.
Defined.

(** ** The auth router *)

Section Login.
Variable S : Services.
Variable secret : string.
Variable now : Z.
Variable st : Store.
Variables phone password : string.

Lemma login_unknown_phone :
  findOne "phone" phone (users st) = None →
  login S secret now st phone password
  = (st, failure 401 "Invalid phone number or password").
Proof. intros H. unfold login. by rewrite H. Qed.

Lemma login_deactivated user :
  findOne "phone" phone (users st) = Some user →
  truthy (field user "isActive") = false →
  login S secret now st phone password
  = (st, failure 401 "Account is deactivated. Please contact support.").
Proof. intros H Ha. unfold login. by rewrite H, Ha. Qed.

Lemma login_wrong_password user :
  findOne "phone" phone (users st) = Some user →
  truthy (field user "isActive") = true →
  comparePassword S user password = false →
  login S secret now st phone password
  = (st, failure 401 "Invalid phone number or password").
Proof. intros H Ha Hp. unfold login. by rewrite H, Ha, Hp. Qed.

(** The admin login answers 401 with one message for an unknown phone, for
    a user who is not an admin and for a wrong password, and then leaves the
    store as it is: no token is signed before the role is checked. *)
Lemma adminLogin_rejected :
  (findOne "phone" phone (users st) = None
   ∨ ∃ user, findOne "phone" phone (users st) = Some user
             ∧ (is_str "admin" (field user "role") = false
                ∨ comparePassword S user password = false)) →
  adminLogin S secret now st phone password
  = (st, failure 401 "Invalid admin credentials").
Proof.
  unfold adminLogin. intros [H|(user & H & [Hr|Hp])]; rewrite H; [done| |].
  - by rewrite Hr.
  - rewrite Hp. by destruct (is_str "admin" (field user "role")).
Qed.

(** An admin with the right password is let in whatever [isActive] is, and
    the payload of the token has the role. *)
Lemma adminLogin_accepted user :
  findOne "phone" phone (users st) = Some user →
  is_str "admin" (field user "role") = true →
  comparePassword S user password = true →
  adminLogin S secret now st phone password
  = (let user := <["lastLogin" := VNum now]> user in
     (with_users st (save user (users st)),
      json 200 (obj [
        ("success", VBool true);
        ("message", VStr "Admin login successful!");
        ("data", VObj (obj [
           ("user", VObj (login_view user));
           ("token", VStr (jwt_sign S
              (obj [("userId", field user "_id"); ("role", field user "role")])
              secret "7d"))]))]))).
Proof. intros H Hr Hp. unfold adminLogin. by rewrite H, Hr, Hp. Qed.

End Login.

(** C8: a login with a phone that no user has and a login with a known,
    active user's phone and a password that does not verify get the same
    answer, 401 with "Invalid phone number or password", and leave the
    store as it is; a login for a user whose [isActive] is falsy gets, for
    any password, 401 with a deactivation message, which is a different
    answer. *)
Theorem login_failure_messages S secret now st phone phone' password password' :
  (findOne "phone" phone (users st) = None →
   ∀ user, findOne "phone" phone' (users st) = Some user →
     truthy (field user "isActive") = true →
     comparePassword S user password' = false →
     login S secret now st phone password
     = login S secret now st phone' password'
     ∧ login S secret now st phone password
       = (st, failure 401 "Invalid phone number or password")) ∧
  (∀ user, findOne "phone" phone (users st) = Some user →
     truthy (field user "isActive") = false →
     login S secret now st phone password
     = (st, failure 401 "Account is deactivated. Please contact support.")) ∧
  field (body (failure 401 "Account is deactivated. Please contact support.")) "message"
  ≠ field (body (failure 401 "Invalid phone number or password")) "message".
Proof.
  split_and!.
  - intros Hnone user Hsome Ha Hp.
    rewrite (login_unknown_phone _ _ _ _ _ _ Hnone).
    by rewrite (login_wrong_password _ _ _ _ _ _ _ Hsome Ha Hp).
  - intros user. apply login_deactivated.
  - vm_compute. discriminate.
Qed.

Lemma login_failure_messages_witness :
  (login Samples.services0 "k" 5 Samples.store0 "0000000000" "secret"
   = login Samples.services0 "k" 5 Samples.store0 "9999999999" "wrong"
   ∧ login Samples.services0 "k" 5 Samples.store0 "0000000000" "secret"
     = (Samples.store0, failure 401 "Invalid phone number or password")) ∧
  login Samples.services0 "k" 5 Samples.store0 "2222222222" "smitaa"
  = (Samples.store0, failure 401 "Account is deactivated. Please contact support.").
Proof.
  split.
  - apply (proj1 (login_failure_messages Samples.services0 "k" 5 Samples.store0
                    "0000000000" "9999999999" "secret" "wrong") eq_refl
             (Samples.account "u2" "9999999999" "user" "h:secret" true));
      reflexivity.
  - apply (proj1 (proj2 (login_failure_messages Samples.services0 "k" 5 Samples.store0
                    "2222222222" "2222222222" "smitaa" "smitaa"))
             (Samples.account "u1" "2222222222" "admin" "h:smitaa" false));
      reflexivity.
Defined.

(** C2 (the code at a deactivated admin): the stored user with phone
    2222222222 is an admin whose [isActive] is false and whose password is
    "smitaa".  The user login refuses these credentials with the
    deactivation message; the admin login accepts them: it answers 200,
    records the login and returns a token signed over the user id and the
    role. *)
Theorem adminLogin_deactivated_admin :
  let S := Samples.services0 in
  let st := Samples.store0 in
  let user := Samples.account "u1" "2222222222" "admin" "h:smitaa" false in
  findOne "phone" "2222222222" (users st) = Some user ∧
  field user "isActive" = VBool false ∧
  field user "role" = VStr "admin" ∧
  comparePassword S user "smitaa" = true ∧
  login S "k" 5 st "2222222222" "smitaa"
  = (st, failure 401 "Account is deactivated. Please contact support.") ∧
  adminLogin S "k" 5 st "2222222222" "smitaa"
  = (with_users st (save (<["lastLogin" := VNum 5]> user) (users st)),
     json 200 (obj [
       ("success", VBool true);
       ("message", VStr "Admin login successful!");
       ("data", VObj (obj [
          ("user", VObj (login_view (<["lastLogin" := VNum 5]> user)));
          ("token", VStr (jwt_sign S
             (obj [("userId", VStr "u1"); ("role", VStr "admin")]) "k" "7d"))]))])).
Proof.
  intros S st user. split_and!; reflexivity.
Qed.

(** The user objects of the register and login answers are built field by
    field, without the password; GET /me removes it from the document. *)
Lemma login_view_no_password user : login_view user !! "password" = None.
Proof. unfold login_view, obj. simpl. by simplify_map_eq. Qed.

Lemma me_no_password st reqUser :
  ∃ user,
    me st reqUser = json 200 (obj [("success", VBool true);
                                   ("data", VObj (obj [("user", user)]))]) ∧
    (user = VNull ∨ ∃ d : Doc, user = VObj d ∧ d !! "password" = None).
Proof.
  unfold me. eexists. split; [reflexivity|].
  destruct (findByRef _ _) as [u|]; simpl; [right|by left].
  eexists. split; [reflexivity|]. apply lookup_delete_eq.
Qed.

(** C3: whatever the request and the store, the user object in the answer
    of a registration, a login, an admin login, GET /me and a profile update
    has no [password] field.  The three first build the object field by
    field, GET /me selects the field away, and the profile update returns
    the saved document, serialised as the public projection. *)
Theorem user_answers_hide_password S secret defaults freshId now st
    name email phone password reqUser reqBody (d u : Doc) :
  let answers :=
    [(register S secret defaults freshId st name email phone password).1.2;
     (login S secret now st phone password).2;
     (adminLogin S secret now st phone password).2;
     me st reqUser;
     (updateProfile st reqUser reqBody).2] in
  ∀ r, r ∈ answers →
    body r !! "data" = Some (VObj d) → d !! "user" = Some (VObj u) →
    u !! "password" = None.
Proof.
  intros answers r Hr Hd Hu.
  unfold answers in Hr.
  rewrite !elem_of_cons, elem_of_nil in Hr.
  destruct Hr as [->|[->|[->|[->|[->|[]]]]]].
  - unfold register in Hd.
    destruct (findOne "phone" phone (users st)); [by vm_compute in Hd|].
    destruct (if truthy _ then _ else _); [by vm_compute in Hd|].
    unfold obj in Hd. simpl in Hd. simplify_map_eq.
    unfold obj. simpl. by simplify_map_eq.
  - unfold login in Hd.
    destruct (findOne "phone" phone (users st)) as [user|]; [|by vm_compute in Hd].
    destruct (negb (truthy (field user "isActive"))); [by vm_compute in Hd|].
    destruct (negb (comparePassword S user password)); [by vm_compute in Hd|].
    unfold obj in Hd. simpl in Hd. simplify_map_eq. apply login_view_no_password.
  - unfold adminLogin in Hd.
    destruct (findOne "phone" phone (users st)) as [user|]; [|by vm_compute in Hd].
    destruct (negb (is_str "admin" (field user "role"))); [by vm_compute in Hd|].
    destruct (negb (comparePassword S user password)); [by vm_compute in Hd|].
    unfold obj in Hd. simpl in Hd. simplify_map_eq. apply login_view_no_password.
  - unfold me in Hd.
    destruct (findByRef (field reqUser "_id") (users st)) as [user|];
      unfold obj in Hd; simpl in Hd; simplify_map_eq.
    by rewrite ?lookup_delete_eq.
  - unfold updateProfile in Hd.
    destruct (findByRef (field reqUser "_id") (users st)) as [user|];
      [|by vm_compute in Hd].
    destruct (phone_taken _ _); [by vm_compute in Hd|].
    unfold obj in Hd. simpl in Hd. simplify_map_eq.
    by rewrite ?lookup_delete_eq.
Qed.

Lemma user_answers_hide_password_witness :
  let reqUser := Samples.account "u2" "9999999999" "user" "h:secret" true in
  let u := delete "password" (<["name" := VStr "Ravi"]> reqUser) in
  (updateProfile Samples.store0 reqUser (obj [("name", VStr "Ravi")])).2
  = json 200 (obj [("success", VBool true);
                   ("message", VStr "Profile updated successfully");
                   ("data", VObj (obj [("user", VObj u)]))]) ∧
  u !! "name" = Some (VStr "Ravi") ∧
  u !! "password" = None.
Proof.
  intros reqUser u. split; [reflexivity|]. split; [reflexivity|].
  apply (user_answers_hide_password Samples.services0 "k" ∅ "u3" 5 Samples.store0
           "Ravi" None "9999999999" "secret" reqUser (obj [("name", VStr "Ravi")])
           (obj [("user", VObj u)]) u
           (updateProfile Samples.store0 reqUser (obj [("name", VStr "Ravi")])).2).
  - do 4 apply list_elem_of_further. apply list_elem_of_here.
  - reflexivity.
  - reflexivity.
Defined.

(** ** Patterns and substrings *)

Import SearchSpec.

Lemma prefixb_spec p s : prefixb p s = true ↔ ∃ b, s = p +:+ b.
Proof.
  revert s. induction p as [|x p IH]; intros s; simpl.
  - split; [intros _; by exists s|done].
  - destruct s as [|c s]; simpl.
    + split; [done|intros [b Hb]; discriminate].
    + rewrite andb_true_iff, IH. split.
      * intros [->%Ascii.eqb_eq [b ->]]. by exists b.
      * intros [b [= -> ->]]. split; [apply Ascii.eqb_refl|by exists b].
Qed.

Lemma substringb_spec p s : substringb p s = true ↔ ∃ a b, s = a +:+ p +:+ b.
Proof.
  induction s as [|c s IH]; simpl.
  - rewrite orb_false_r, prefixb_spec. split.
    + intros [b Hb]. by exists "", b.
    + intros (a & b & H). destruct a; [by exists b|discriminate].
  - rewrite orb_true_iff, prefixb_spec, IH. split.
    + intros [[b Hb]|(a & b & ->)].
      * by exists "", b.
      * by exists (String c a), b.
    + intros (a & b & H). destruct a as [|x a]; simpl in H.
      * left. by exists b.
      * right. injection H as -> ->. by exists a, b.
Qed.

Lemma ci_substringb_spec p s : ci_substringb p s = true ↔ ci_substring p s.
Proof. apply substringb_spec. Qed.

(** A literal pattern compiles to its characters. *)
Lemma compile_literal p :
  literal p = true → Regex.compile p = Some (Regex.Lit <$> String.list_ascii_of_string p).
Proof.
  induction p as [|c p IH]; simpl; [done|].
  intros [Hc Hp]%andb_true_iff. apply negb_true_iff in Hc.
  destruct (Ascii.eqb c ".") eqn:Hdot.
  { apply Ascii.eqb_eq in Hdot. subst c. discriminate Hc. }
  rewrite Hc, (IH Hp). done.
Qed.

Lemma match_here_literal p s :
  Regex.match_here true (Regex.Lit <$> String.list_ascii_of_string p) s
  = prefixb (lower_str p) (lower_str s).
Proof.
  revert s. induction p as [|x p IH]; intros s; simpl; [done|].
  destruct s as [|c s]; simpl; [done|]. by rewrite IH.
Qed.

Lemma search_literal p s :
  Regex.search true (Regex.Lit <$> String.list_ascii_of_string p) s = ci_substringb p s.
Proof.
  unfold ci_substringb. induction s as [|c s IH]; simpl.
  - by rewrite match_here_literal.
  - by rewrite match_here_literal, IH.
Qed.

(** For a location without metacharacters the pattern match is the
    case-insensitive substring test. *)
Lemma literal_location_is_substring x r s :
  literal x = true → Regex.compile x = Some r →
  Regex.search true r s = true ↔ ci_substring x s.
Proof.
  intros Hl Hc. rewrite (compile_literal _ Hl) in Hc. injection Hc as <-.
  by rewrite search_literal, ci_substringb_spec.
Qed.

(** ** The filter of GET /api/properties *)

Section Filter.
Variable E : Engine.
Variable d : Doc.

Lemma matches_app (f g : Filter) :
  matches E (f ++ g) d = matches E f d && matches E g d.
Proof. apply forallb_app. Qed.

Lemma matches_one kc : matches E [kc] d = holds E d kc.
Proof. unfold matches. simpl. apply andb_true_r. Qed.

Lemma truthy_param o :
  truthy (param o) = true ↔ ∃ x, given o x.
Proof.
  unfold given. destruct o as [x|]; simpl.
  - destruct (String.eqb_spec x ""); simpl; split; try done.
    + intros (y & [= <-] & Hy). done.
    + intros _. by exists x.
  - split; [done|]. by intros (y & [=] & _).
Qed.

Lemma not_truthy_param o x : truthy (param o) = false → ¬ given o x.
Proof.
  intros Hf Hg. assert (truthy (param o) = true) by (apply truthy_param; eauto).
  congruence.
Qed.

Lemma given_unique o x y : given o x → given o y → x = y.
Proof. intros [-> _] [[= ->] _]. done. Qed.

Lemma given_default o x : given o x → default "" o = x.
Proof. by intros [-> _]. Qed.

Lemma holds_EqStr k s : holds E d (k, EqStr s) = true ↔ field d k = VStr s.
Proof.
  unfold holds, is_str. simpl. destruct (field d k); try (split; done).
  destruct (String.eqb_spec s0 s); split; try done; congruence.
Qed.

Lemma holds_EqBool k b : holds E d (k, EqBool b) = true ↔ field d k = VBool b.
Proof.
  unfold holds. simpl. destruct (field d k); try (split; done).
  destruct b, b0; split; try done.
Qed.

Lemma holds_Matches k pattern options :
  holds E d (k, Matches pattern options) = true
  ↔ ∃ test s, regex E pattern options = Some test ∧ field d k = VStr s
              ∧ test s = true.
Proof.
  unfold holds. simpl.
  destruct (regex E pattern options) as [test|]; [|split; [done|by intros (? & ? & [=] & _)]].
  destruct (field d k); split; try done; try (by intros (? & ? & _ & [=] & _)).
  - intros H. by exists test, s.
  - by intros (? & ? & [= <-] & [= <-] & H).
Qed.

Lemma holds_Range k gte lte :
  holds E d (k, Range gte lte) = true
  ↔ ∃ price, field d k = VNum price
             ∧ (∀ lo, gte = Some lo → lo ≤ price)
             ∧ (∀ hi, lte = Some hi → price ≤ hi).
Proof.
  unfold holds. simpl. destruct (field d k) as [| | |price| | |]; split; try done;
    try (by intros (p' & [=] & _)).
  - intros [H1 H2]%andb_true_iff. exists price. split_and!; [done| |].
    + intros lo ->. simpl in H1. lia.
    + intros hi ->. simpl in H2. lia.
  - intros (p' & [= <-] & H1 & H2). apply andb_true_iff. split.
    + destruct gte as [lo|]; simpl; [|done]. specialize (H1 lo eq_refl). lia.
    + destruct lte as [hi|]; simpl; [|done]. specialize (H2 hi eq_refl). lia.
Qed.

Lemma set_location_spec loc (f : Filter) :
  matches E (set_location loc f) d = true
  ↔ matches E f d = true
    ∧ ∀ x, given loc x →
        ∃ test s, regex E x "i" = Some test ∧ field d "location" = VStr s
                  ∧ test s = true.
Proof.
  unfold set_location. destruct (truthy (param loc)) eqn:Ht.
  - apply truthy_param in Ht as [x Hx]. rewrite (given_default _ _ Hx).
    rewrite matches_app, andb_true_iff, matches_one, holds_Matches.
    split; intros [Hf H]; (split; [done|]).
    + intros y Hy. by rewrite <- (given_unique _ _ _ Hx Hy).
    + by apply H.
  - split; [|tauto]. intros Hf. split; [done|].
    intros x Hx. by apply not_truthy_param with (x := x) in Ht.
Qed.

Lemma set_unless_all_spec key o (f : Filter) :
  matches E (set_unless_all key o f) d = true
  ↔ matches E f d = true
    ∧ ∀ x, given o x → x ≠ "all" → field d key = VStr x.
Proof.
  unfold set_unless_all. destruct (truthy (param o)) eqn:Ht; simpl.
  - apply truthy_param in Ht as [x Hx]. rewrite (given_default _ _ Hx).
    destruct Hx as [-> Hne]. simpl.
    destruct (String.eqb_spec x "all") as [->|Hall]; simpl.
    + split; [|tauto]. intros Hf. split; [done|]. by intros y [[= <-] _].
    + rewrite matches_app, andb_true_iff, matches_one, holds_EqStr.
      split; intros [Hf H]; (split; [done|]).
      * by intros y [[= <-] _] _.
      * by apply H.
  - split; [|tauto]. intros Hf. split; [done|].
    intros x Hx. by apply not_truthy_param with (x := x) in Ht.
Qed.

Lemma set_status_spec o (f : Filter) :
  matches E (set_status o f) d = true
  ↔ matches E f d = true ∧ ∀ x, given o x → field d "status" = VStr x.
Proof.
  unfold set_status. destruct (truthy (param o)) eqn:Ht; simpl.
  - apply truthy_param in Ht as [x Hx]. rewrite (given_default _ _ Hx).
    rewrite matches_app, andb_true_iff, matches_one, holds_EqStr.
    split; intros [Hf H]; (split; [done|]).
    + intros y Hy. by rewrite <- (given_unique _ _ _ Hx Hy).
    + by apply H.
  - split; [|tauto]. intros Hf. split; [done|].
    intros x Hx. by apply not_truthy_param with (x := x) in Ht.
Qed.

Lemma set_text_spec o (f : Filter) :
  matches E (set_text o f) d = true
  ↔ matches E f d = true ∧ ∀ x, given o x → text_search E x d = true.
Proof.
  unfold set_text. destruct (truthy (param o)) eqn:Ht; simpl.
  - apply truthy_param in Ht as [x Hx]. rewrite (given_default _ _ Hx).
    rewrite matches_app, andb_true_iff, matches_one. unfold holds. simpl.
    split; intros [Hf H]; (split; [done|]).
    + intros y Hy. by rewrite <- (given_unique _ _ _ Hx Hy).
    + by apply H.
  - split; [|tauto]. intros Hf. split; [done|].
    intros x Hx. by apply not_truthy_param with (x := x) in Ht.
Qed.

Lemma bound_spec o b :
  bound o = Some b →
  (b = None ∧ ∀ x, ¬ given o x)
  ∨ ∃ x n, given o x ∧ parseInt_str x = Some n ∧ b = Some n.
Proof.
  unfold bound. intros Hb. destruct (truthy (param o)) eqn:Ht.
  - apply truthy_param in Ht as [x Hx]. right.
    destruct Hx as [-> Hne]. simpl in Hb.
    destruct (parseInt_str x) as [n|] eqn:Hn; simpl in Hb; [|done].
    injection Hb as <-. exists x, n. by split_and!.
  - injection Hb as <-. left. split; [done|].
    intros x. by apply not_truthy_param.
Qed.

Lemma set_price_spec mn mx (f f' : Filter) :
  set_price mn mx f = Some f' →
  matches E f' d = true
  ↔ matches E f d = true
    ∧ (∀ x, given mn x →
         ∃ lo price, parseInt_str x = Some lo ∧ field d "price" = VNum price
                     ∧ lo ≤ price)
    ∧ (∀ x, given mx x →
         ∃ hi price, parseInt_str x = Some hi ∧ field d "price" = VNum price
                     ∧ price ≤ hi).
Proof.
  unfold set_price.
  destruct (truthy (param mn) || truthy (param mx)) eqn:Ht.
  - destruct (bound mn) as [gte|] eqn:Hg; simpl; [|done].
    destruct (bound mx) as [lte|] eqn:Hl; simpl; [|done].
    intros [= <-]. rewrite matches_app, andb_true_iff, matches_one, holds_Range.
    apply bound_spec in Hg, Hl.
    split.
    + intros (Hf & price & Hp & Hlo & Hhi). split_and!; [done| |].
      * intros x Hx. destruct Hg as [[_ Hg]|(y & n & Hy & Hn & ->)]; [by destruct (Hg x)|].
        rewrite (given_unique _ _ _ Hx Hy). exists n, price. split_and!; auto.
      * intros x Hx. destruct Hl as [[_ Hl]|(y & n & Hy & Hn & ->)]; [by destruct (Hl x)|].
        rewrite (given_unique _ _ _ Hx Hy). exists n, price. split_and!; auto.
    + intros (Hf & Hmin & Hmax). split; [done|].
      destruct Hg as [[-> Hg]|(y & n & Hy & Hn & ->)].
      * destruct Hl as [[-> Hl]|(y' & n' & Hy' & Hn' & ->)].
        { apply orb_true_iff in Ht as [Ht|Ht];
            apply truthy_param in Ht as [x Hx]; [by destruct (Hg x)|by destruct (Hl x)]. }
        destruct (Hmax y' Hy') as (hi & price & Hhi & Hp & Hle).
        exists price. split_and!; [done|done|]. intros ? [= <-]. congruence.
      * destruct (Hmin y Hy) as (lo & price & Hlo & Hp & Hle).
        exists price. split_and!; [done| |].
        { intros ? [= <-]. congruence. }
        intros hi ->.
        destruct Hl as [[[=] _]|(y' & n' & Hy' & Hn' & [= ->])].
        destruct (Hmax y' Hy') as (hi' & price' & Hhi & Hp' & Hle').
        congruence.
  - intros [= <-]. apply orb_false_iff in Ht as [Ht1 Ht2].
    split; [|tauto]. intros Hf. split_and!; [done| |].
    + intros x Hx. by apply not_truthy_param with (x := x) in Ht1.
    + intros x Hx. by apply not_truthy_param with (x := x) in Ht2.
Qed.

(** The filter object of a query holds on a document exactly when the
    document passes every filter the query supplies. *)
Lemma build_filter_spec q (f : Filter) :
  build_filter q = Some f → matches E f d = true ↔ satisfies E q d.
Proof.
  unfold build_filter, satisfies.
  destruct (set_price _ _ _) as [f2|] eqn:H2; simpl; [|done].
  intros [= <-].
  rewrite set_text_spec, (set_price_spec _ _ _ _ H2), set_status_spec,
    !set_unless_all_spec, set_location_spec.
  unfold matches at 1. simpl. rewrite andb_true_r, andb_true_iff.
  rewrite !holds_EqBool. tauto.
Qed.

End Filter.

(** ** Pagination of GET /api/properties *)

Lemma digit_not_space c d : digit_in 10 c = Some d → is_space c = false.
Proof. destruct c as [[] [] [] [] [] [] [] []]; by vm_compute. Qed.

Lemma all_digits_head s :
  all_digits s = true → ∃ c r d, s = String c r ∧ digit_in 10 c = Some d.
Proof.
  destruct s as [|c r]; simpl; [done|].
  destruct (digit_in 10 c) as [d|] eqn:Hd; [|done]. intros _. by exists c, r, d.
Qed.

Lemma all_digits_parse s :
  all_digits s = true →
  strip_radix s = (10, s) ∧ parse_digits 10 s = Some (digits_prefix 10 0 s).
Proof.
  intros Hs. destruct (all_digits_head _ Hs) as (c & r & d & -> & Hd). split.
  - unfold strip_radix. destruct r as [|x r]; [done|].
    destruct (Ascii.eqb c "0" && (Ascii.eqb x "x" || Ascii.eqb x "X")) eqn:Hx; [|done].
    exfalso. apply andb_true_iff in Hx as [_ Hx]. simpl in Hs. rewrite Hd in Hs.
    apply orb_true_iff in Hx as [->%Ascii.eqb_eq| ->%Ascii.eqb_eq]; discriminate Hs.
  - simpl. by rewrite Hd.
Qed.

(** On decimal integers [parseInt] and the numeric conversion agree. *)
Lemma decimal_int_parseInt s z : decimal_int s = Some z → parseInt_str s = Some z.
Proof.
  unfold decimal_int.
  destruct (strip_sign s) as [neg r] eqn:Hsign.
  destruct (all_digits r) eqn:Hr; [|done]. intros [= <-].
  destruct (all_digits_parse _ Hr) as [Hradix Hparse].
  destruct (all_digits_head _ Hr) as (c & r' & d & -> & Hd).
  assert (Hskip : skip_space s = s).
  { destruct s as [|c0 s0]; [done|]. simpl. unfold strip_sign in Hsign.
    destruct (Ascii.eqb c0 "-") eqn:H1; [by apply Ascii.eqb_eq in H1 as ->|].
    destruct (Ascii.eqb c0 "+") eqn:H2; [by apply Ascii.eqb_eq in H2 as ->|].
    injection Hsign as _ -> ->.
    by rewrite (digit_not_space _ _ Hd). }
  unfold parseInt_str. rewrite Hskip, Hsign, Hradix, Hparse. done.
Qed.

Lemma all_digits_split_exp r : all_digits r = true → split_exp r = (r, None).
Proof.
  induction r as [|c r IH]; [done|]. simpl.
  destruct (digit_in 10 c) as [d|] eqn:Hd; [|done].
  assert (Ascii.eqb c "e" || Ascii.eqb c "E" = false) as ->.
  { apply orb_false_iff. split; apply Ascii.eqb_neq; intros ->; discriminate Hd. }
  destruct r as [|c' r']; [done|]. intros Hr. by rewrite (IH Hr).
Qed.

Lemma decimal_int_toNumber s z : decimal_int s = Some z → toNumber (VStr s) = Some z.
Proof.
  unfold decimal_int. simpl. unfold toNumber_str.
  destruct (strip_sign s) as [neg r].
  destruct (all_digits r) eqn:Hr; [|done]. intros [= <-].
  by rewrite (all_digits_split_exp _ Hr), Hr.
Qed.

(** What a page parameter that asks for [p] is to the handler. *)
Lemma asks_for_page q p :
  asks_for (q_page q) 1 p →
  toNumber (page_of q) = Some p ∧ parseInt (page_of q) = Some p.
Proof.
  unfold page_of. intros [[-> ->]|(s & -> & Hs)]; simpl; [done|].
  split; [by apply decimal_int_toNumber|by apply decimal_int_parseInt].
Qed.

Lemma asks_for_limit q l :
  asks_for (q_limit q) 12 l → toNumber (limit_of q) = Some l.
Proof.
  unfold limit_of. intros [[-> ->]|(s & -> & Hs)]; simpl; [done|].
  by apply decimal_int_toNumber.
Qed.

Lemma ceil_div_spec a b :
  0 ≤ a → 1 ≤ b → b * (ceil_div a b - 1) < a ≤ b * ceil_div a b.
Proof.
  intros Ha Hb. unfold ceil_div.
  pose proof (Z.div_mod a b ltac:(lia)) as Hdm.
  pose proof (Z.mod_pos_bound a b ltac:(lia)) as Hm.
  destruct (Z.eqb_spec (a mod b) 0); nia.
Qed.

Lemma ceil_div_unique a b t :
  1 ≤ b → b * (t - 1) < a ≤ b * t → 0 ≤ a → t = ceil_div a b.
Proof.
  intros Hb Ht Ha. pose proof (ceil_div_spec a b Ha Hb). nia.
Qed.

Section Search.
Variable E : Engine.
Variable st : Store.
Variable q : Query.

(** The answer of a search whose parameters the model covers. *)
Lemma search_modelled (f : Filter) found p l cur :
  build_filter q = Some f →
  find E f (properties st) = Some found →
  toNumber (page_of q) = Some p → toNumber (limit_of q) = Some l →
  parseInt (page_of q) = Some cur →
  1 ≤ p → 1 ≤ l →
  let total := Z.of_nat (length found) in
  search E st q =
    Some (search_answer
            (populate_owner (users st)
               <$> take (Z.to_nat l) (drop (Z.to_nat ((p - 1) * l)) (found_sorted E q found)))
            (obj [("currentPage", VNum cur);
                  ("totalPages", VNum (ceil_div total l));
                  ("totalProperties", VNum total);
                  ("hasNext", VBool (p <? ceil_div total l));
                  ("hasPrev", VBool (1 <? p))])).
Proof.
  intros Hf Hfound Hp Hl Hcur Hp1 Hl1. unfold search. rewrite Hf. simpl. rewrite Hp. simpl.
  rewrite Hl. simpl.
  destruct (Z.leb_spec 1 p); [|lia]. destruct (Z.leb_spec 1 l); [|lia]. simpl.
  rewrite Hfound. simpl. rewrite Hcur. simpl.
  unfold paginate, found_sorted. rewrite Z.mul_1_r. done.
Qed.

Lemma search_inv resp :
  search E st q = Some resp →
  ∃ (f : Filter) found p l cur,
    build_filter q = Some f ∧
    find E f (properties st) = Some found ∧
    toNumber (page_of q) = Some p ∧ toNumber (limit_of q) = Some l ∧
    parseInt (page_of q) = Some cur ∧
    1 ≤ p ∧ 1 ≤ l.
Proof.
  unfold search.
  destruct (build_filter q) as [f|]; simpl; [|done].
  destruct (toNumber (page_of q)) as [p|]; simpl; [|done].
  destruct (toNumber (limit_of q)) as [l|]; simpl; [|done].
  destruct (Z.leb_spec 1 p); simpl; [|done].
  destruct (Z.leb_spec 1 l); simpl; [|done].
  destruct (find E f (properties st)) as [found|] eqn:Hfound; simpl; [|done].
  destruct (parseInt (page_of q)) as [cur|]; simpl; [|done].
  intros _. by exists f, found, p, l, cur.
Qed.

(** The documents a filter finds are the stored ones it matches. *)
Lemma find_spec (f : Filter) found :
  find E f (properties st) = Some found →
  found = List.filter (matches E f) (properties st).
Proof. unfold find. destruct (accepted E f); [by intros [= <-]|done]. Qed.

End Search.

Lemma insert_by_perm k dir d l : Samples.insert_by k dir d l ≡ₚ d :: l.
Proof.
  induction l as [|x l IH]; simpl; [done|].
  destruct (_ <=? _); [done|]. rewrite IH. apply Permutation_swap.
Qed.

Lemma sort_numeric_perm k dir l : Samples.sort_numeric k dir l ≡ₚ l.
Proof.
  unfold Samples.sort_numeric. induction l as [|x l IH]; simpl; [done|].
  by rewrite insert_by_perm, IH.
Qed.

Lemma elem_of_filter_matches E (f : Filter) (l : list Doc) p :
  p ∈ List.filter (matches E f) l ↔ p ∈ l ∧ matches E f p = true.
Proof. rewrite !list_elem_of_In. apply filter_In. Qed.




(** C4 (as the code has it): for a query whose price bounds [parseInt] can
    read and whose location the store accepts as a pattern, the documents
    the handler's query finds are exactly the stored documents that pass
    every filter the query supplies: [isApproved] and [isActive] true; a
    non-empty [location] as a pattern of the store, with the option [i],
    that the location matches; [type] and [bhk], when non-empty and not
    "all", and a non-empty [status], equal to the field; [parseInt] of a
    non-empty [minPrice] at most the price and [parseInt] of a non-empty
    [maxPrice] at least the price; a non-empty [search] as the engine's text
    match.  Every search that is answered returns only such documents, each
    approved and active and changed in its owner only, and counts them in
    [totalProperties].  For a store that knows the patterns of literals and
    [.], a location without metacharacters matches exactly when it occurs
    in the field, letter case ignored. *)
Theorem search_results_pass_filters E st q (f : Filter) found :
  (∀ k dir docs, sort_docs E k dir docs ≡ₚ docs) →
  build_filter q = Some f → find E f (properties st) = Some found →
  (∀ p, p ∈ found ↔ p ∈ properties st ∧ satisfies E q p) ∧
  (∀ resp, search E st q = Some resp →
     ∃ results pagination,
       resp = search_answer results pagination ∧
       pagination !! "totalProperties" = Some (VNum (Z.of_nat (length found))) ∧
       ∀ d, d ∈ results →
         ∃ p, p ∈ found ∧ (∀ k, k ≠ "owner" → d !! k = p !! k) ∧
              field d "isApproved" = VBool true ∧ field d "isActive" = VBool true) ∧
  (knows_fragment E → ∀ x, given (q_location q) x → literal x = true →
     ∀ p : Doc,
       (∃ test s, regex E x "i" = Some test ∧ field p "location" = VStr s
                  ∧ test s = true)
       ↔ ∃ s, field p "location" = VStr s ∧ ci_substring x s).
Proof.
  intros Hsort Hf Hfind.
  assert (Hfound : ∀ d, d ∈ found ↔ d ∈ properties st ∧ satisfies E q d).
  { intros d. rewrite (find_spec _ _ _ _ Hfind), elem_of_filter_matches.
    by rewrite (build_filter_spec E d q f Hf). }
  split_and!.
  - exact Hfound.
  - intros resp Hs.
    destruct (search_inv _ _ _ _ Hs)
      as (f' & found' & p & l & cur & Hf' & Hfind' & Hp & Hl & Hcur & Hp1 & Hl1).
    assert (f' = f) as -> by congruence. assert (found' = found) as -> by congruence.
    rewrite (search_modelled _ _ _ _ _ _ _ _ Hf Hfind Hp Hl Hcur Hp1 Hl1) in Hs.
    injection Hs as <-. eexists _, _. split_and!; [reflexivity|reflexivity|].
    intros d (p0 & -> & Hin)%list_elem_of_fmap.
    apply subseteq_take, subseteq_drop in Hin.
    unfold found_sorted in Hin. rewrite Hsort in Hin.
    exists p0. split_and!; [done| | |].
    + intros k Hk. by apply lookup_populate_owner.
    + rewrite field_populate_owner by done. by apply Hfound in Hin as [_ (? & _)].
    + rewrite field_populate_owner by done. by apply Hfound in Hin as [_ (_ & ? & _)].
  - intros Hknows x _ Hlit p.
    pose proof (compile_literal _ Hlit) as Hc.
    rewrite (Hknows _ _ Hc). split.
    + intros (test & s & [= <-] & Hs & Ht). exists s. split; [done|].
      by rewrite <- ci_substringb_spec, <- search_literal.
    + intros (s & Hs & Hsub). eexists _, s. split_and!; [reflexivity|done|].
      by rewrite search_literal, ci_substringb_spec.
Qed.

Lemma search_results_pass_filters_witness :
  let p1 := Samples.listing "p1" "flat" "abc" 100 7 true in
  (∀ p, p ∈ [p1] ↔
        p ∈ properties Samples.store0
        ∧ satisfies Samples.numericEngine (Samples.byLocation "AB") p) ∧
  ((∃ test s, regex Samples.numericEngine "AB" "i" = Some test
              ∧ field p1 "location" = VStr s ∧ test s = true)
   ↔ ∃ s, field p1 "location" = VStr s ∧ ci_substring "AB" s) ∧
  search Samples.numericEngine Samples.store0 (Samples.byLocation "AB")
  = Some (search_answer [populate_owner (users Samples.store0) p1]
            (obj [("currentPage", VNum 1);
                  ("totalPages", VNum 1);
                  ("totalProperties", VNum 1);
                  ("hasNext", VBool false);
                  ("hasPrev", VBool false)])).
Proof.
  intros p1.
  destruct (search_results_pass_filters Samples.numericEngine Samples.store0
              (Samples.byLocation "AB")
              [("isApproved", EqBool true); ("isActive", EqBool true);
               ("location", Matches "AB" "i")]
              [p1] sort_numeric_perm eq_refl eq_refl)
    as (Hfound & _ & Hlit).
  split_and!.
  - exact Hfound.
  - apply Hlit; [|by split|reflexivity].
    intros x r Hr. unfold Samples.numericEngine, Samples.fragment_regex. simpl.
    by rewrite Hr.
  - vm_compute. reflexivity.
Defined.

(** C4 (as stated) fails: the pattern [a.c] finds the approved, active
    property whose location is "abc", and "a.c" does not occur in "abc". *)
Lemma search_location_is_a_pattern :
  let p := Samples.listing "p1" "flat" "abc" 100 7 true in
  search Samples.numericEngine Samples.store0 (Samples.byLocation "a.c")
    = Some (search_answer [populate_owner (users Samples.store0) p]
              (obj [("currentPage", VNum 1);
                    ("totalPages", VNum 1);
                    ("totalProperties", VNum 1);
                    ("hasNext", VBool false);
                    ("hasPrev", VBool false)])) ∧
  p ∈ properties Samples.store0 ∧
  field p "isApproved" = VBool true ∧
  field p "isActive" = VBool true ∧
  field p "location" = VStr "abc" ∧
  ¬ ci_substring "a.c" "abc".
Proof.
  split_and!.
  - vm_compute. reflexivity.
  - apply list_elem_of_here.
  - reflexivity.
  - reflexivity.
  - reflexivity.
  - intros H%ci_substringb_spec. vm_compute in H. discriminate H.
Qed.

(** ** More on the properties router *)

Lemma remove_first_app id l1 d l2 :
  Forall (fun x => has_id id x = false) l1 → has_id id d = true →
  remove_first id (l1 ++ d :: l2) = l1 ++ l2.
Proof.
  induction 1 as [|x l1 Hx _ IH]; simpl; intros Hd.
  - by rewrite Hd.
  - rewrite Hx. f_equal. by apply IH.
Qed.

Lemma find_app_none {A} (P : A → bool) l1 l2 :
  Forall (fun x => P x = false) l1 → List.find P (l1 ++ l2) = List.find P l2.
Proof. induction 1 as [|x l1 Hx _ IH]; simpl; [done|]. by rewrite Hx. Qed.

Lemma find_none_Forall {A} (P : A → bool) l :
  List.find P l = None ↔ Forall (fun x => P x = false) l.
Proof.
  induction l as [|x l IH]; simpl.
  - split; [constructor|done].
  - destruct (P x) eqn:Hx.
    + split; [done|]. intros H. inversion H; congruence.
    + rewrite IH. split; [by constructor|]. intros H. by inversion H.
Qed.

Lemma has_id_other id id' d : has_id id d = true → id' ≠ id → has_id id' d = false.
Proof.
  unfold has_id, is_str. destruct (field d "_id"); try done.
  intros ->%String.eqb_eq Hne. by apply String.eqb_neq.
Qed.

Lemma has_id_field id d : has_id id d = true → field d "_id" = VStr id.
Proof.
  unfold has_id, is_str. destruct (field d "_id"); try done.
  by intros ->%String.eqb_eq.
Qed.

(** When the [_id]s of a collection are pairwise distinct, the document
    found for an id is the only one with it. *)
Lemma unique_id_split id (c : list Doc) d :
  NoDup ((fun x : Doc => field x "_id") <$> c) →
  findById id c = Some d →
  ∃ l1 l2, c = l1 ++ d :: l2 ∧ has_id id d = true
           ∧ Forall (fun x => has_id id x = false) l1
           ∧ Forall (fun x => has_id id x = false) l2.
Proof.
  intros Hnd Hf. destruct (find_split _ _ _ Hf) as (l1 & l2 & -> & Hd & Hl1).
  exists l1, l2. split_and!; try done.
  rewrite fmap_app, fmap_cons in Hnd.
  apply NoDup_app in Hnd as (_ & _ & Hnd). apply NoDup_cons in Hnd as [Hnotin _].
  apply Forall_forall. intros x Hx.
  destruct (has_id id x) eqn:Hidx; [|done].
  exfalso. apply Hnotin. apply list_elem_of_fmap. exists x. split; [|done].
  by rewrite (has_id_field _ _ Hd), (has_id_field _ _ Hidx).
Qed.

(** X1: a delete of an id that resolves to nothing is answered 404 and
    leaves the store as it is; a delete of a stored property is answered
    200 and takes exactly that document out of the collection, the others
    staying in their order, and leaves the users as they are. *)
Theorem remove_takes_one_out st id :
  (findById id (properties st) = None →
   remove st id = (st, failure 404 "Property not found")) ∧
  (∀ d, findById id (properties st) = Some d →
     ∃ l1 l2,
       properties st = l1 ++ d :: l2 ∧
       properties (remove st id).1 = l1 ++ l2 ∧
       users (remove st id).1 = users st ∧
       (remove st id).2 = json 200 (obj [("success", VBool true);
                                         ("message", VStr "Property deleted successfully")])).
Proof.
  split.
  - intros H. unfold remove. by rewrite H.
  - intros d H. unfold remove. rewrite H. simpl.
    destruct (find_split _ _ _ H) as (l1 & l2 & Hc & Hd & Hl1).
    exists l1, l2. split_and!; try done.
    rewrite Hc. by apply remove_first_app.
Qed.

Lemma remove_takes_one_out_witness :
  ∃ l1 l2,
    properties Samples.store0
      = l1 ++ Samples.listing "p1" "flat" "abc" 100 7 true :: l2 ∧
    properties (remove Samples.store0 "p1").1 = l1 ++ l2 ∧
    remove Samples.store0 "nope"
      = (Samples.store0, failure 404 "Property not found").
Proof.
  destruct (proj2 (remove_takes_one_out Samples.store0 "p1")
              (Samples.listing "p1" "flat" "abc" 100 7 true) eq_refl)
    as (l1 & l2 & H1 & H2 & _).
  exists l1, l2. split_and!; [exact H1|exact H2|].
  exact (proj1 (remove_takes_one_out Samples.store0 "nope") eq_refl).
Defined.

(** X2: in a collection whose [_id]s are pairwise distinct, after the
    delete of a stored property a fetch of its id is answered 404 "Property
    not found", and every other id resolves as before. *)
Theorem remove_then_getOne st id d :
  NoDup ((fun x : Doc => field x "_id") <$> properties st) →
  findById id (properties st) = Some d →
  let st' := (remove st id).1 in
  getOne st' id = Some (st', failure 404 "Property not found") ∧
  ∀ id', id' ≠ id → findById id' (properties st') = findById id' (properties st).
Proof.
  intros Hnd Hf st'.
  destruct (unique_id_split _ _ _ Hnd Hf) as (l1 & l2 & Hc & Hd & Hl1 & Hl2).
  assert (Hst' : properties st' = l1 ++ l2).
  { unfold st', remove. rewrite Hf. simpl. rewrite Hc. by apply remove_first_app. }
  split.
  - apply getOne_missing. rewrite Hst'. apply find_none_Forall.
    by apply Forall_app.
  - intros id' Hne. rewrite Hst', Hc. unfold findById.
    clear Hl1 Hc Hst'. induction l1 as [|x l1 IH]; simpl.
    + by rewrite (has_id_other _ _ _ Hd Hne).
    + by destruct (has_id id' x).
Qed.

Lemma remove_then_getOne_witness :
  getOne (remove Samples.store0 "p1").1 "p1"
    = Some ((remove Samples.store0 "p1").1, failure 404 "Property not found") ∧
  findById "p2" (properties (remove Samples.store0 "p1").1)
    = findById "p2" (properties Samples.store0).
Proof.
  assert (Hnd : NoDup ((fun x : Doc => field x "_id") <$> properties Samples.store0)).
  { apply NoDup_cons. split.
    - intros H%list_elem_of_singleton. discriminate H.
    - apply NoDup_singleton. }
  destruct (remove_then_getOne Samples.store0 "p1"
              (Samples.listing "p1" "flat" "abc" 100 7 true) Hnd eq_refl)
    as [H1 H2].
  split; [exact H1|]. apply H2. discriminate.
Defined.




Lemma propertyData_other user (reqBody : Doc) k :
  k ≠ "images" → k ≠ "isActive" → k ≠ "isApproved" → k ≠ "owner" →
  propertyData user reqBody !! k = reqBody !! k.
Proof. intros. unfold propertyData. by rewrite !lookup_insert_ne. Qed.

Lemma propertyData_owner user (reqBody : Doc) :
  propertyData user reqBody !! "owner" = Some (field user "_id").
Proof. unfold propertyData. by simplify_map_eq. Qed.

Lemma newProperty_id defaults freshId (data : Doc) :
  data !! "_id" = None →
  newProperty defaults freshId data !! "_id" = Some (VStr freshId).
Proof.
  intros H. unfold newProperty. rewrite lookup_union_r by done.
  apply lookup_insert_eq.
Qed.

(** X4: a property created with an id that is not in use, from a body that
    does not name [_id], can be fetched at once: when its view counter is a
    number [n] (from the body or the defaults of the schema) the fetch of
    the new id is answered 200 and leaves the counter at [n + 1]. *)
Theorem create_then_getOne M defaults freshId st user (reqBody : Doc) n :
  findById freshId (properties st) = None →
  reqBody !! "_id" = None →
  let property := newProperty defaults freshId (propertyData user reqBody) in
  field property "views" = VNum n →
  let st' := (create M defaults freshId st user reqBody).1.1 in
  ∃ st2 r,
    getOne st' freshId = Some (st2, r) ∧ status r = 200 ∧
    findById freshId (properties st2) = Some (<["views" := VNum (n + 1)]> property).
Proof.
  intros Hfresh Hb property Hn st'.
  assert (Hid : has_id freshId property = true).
  { unfold has_id, field, property.
    rewrite newProperty_id by (by rewrite propertyData_other).
    simpl. apply String.eqb_refl. }
  apply find_none_Forall in Hfresh.
  assert (Hf : findById freshId (properties st') = Some property).
  { unfold st'. rewrite create_result. simpl.
    by apply (find_app_first (has_id freshId) (properties st) property []). }
  eexists _, _. split.
  { apply (getOne_visible st' freshId property n Hf); [|done].
    unfold field, property.
    rewrite (newProperty_supplied _ _ _ _ _ (propertyData_isApproved user reqBody)).
    by rewrite (newProperty_supplied _ _ _ _ _ (propertyData_isActive user reqBody)). }
  split; [reflexivity|].
  - simpl. fold property.
    rewrite (replace_first_app freshId _ (properties st) property []) by done.
    apply find_app_first; [done|]. by rewrite has_id_insert.
Qed.

Lemma create_then_getOne_witness :
  let M := {| sendPropertyListedEmail := fun _ _ _ => true;
              sendAdminNotification := fun _ _ _ => true |} in
  let defaults := obj [("views", VNum 0)] in
  let reqBody := obj [("type", VStr "flat")] in
  ∃ st2 r,
    getOne (create M defaults "p3" Samples.store0 ∅ reqBody).1.1 "p3" = Some (st2, r) ∧
    status r = 200.
Proof.
  intros M defaults reqBody.
  destruct (create_then_getOne M defaults "p3" Samples.store0 ∅ reqBody 0
              eq_refl eq_refl eq_refl)
    as (st2 & r & H1 & H2 & _).
  exists st2, r. split; [exact H1|exact H2].
Defined.

(** X5: the owner of a created property is the [_id] of the authenticated
    admin, whatever [owner] the body carries; when that admin is a stored
    user, the property in the answer of the create is the stored one but
    for its owner, which is an object with the admin's [_id], [name],
    [email] and [phone] and no other field. *)
Theorem create_owner_is_caller M defaults freshId st user (reqBody : Doc) :
  let property := newProperty defaults freshId (propertyData user reqBody) in
  property !! "owner" = Some (field user "_id") ∧
  (∀ owner, create M defaults freshId st user (<["owner" := owner]> reqBody)
            = create M defaults freshId st user reqBody) ∧
  (∀ uid u, field user "_id" = VStr uid → findById uid (users st) = Some u →
     ∃ answered o : Doc,
       (create M defaults freshId st user reqBody).1.2
       = json 201 (obj [
           ("success", VBool true);
           ("message", VStr "Property listed successfully and is now live on the website!");
           ("data", VObj (obj [("property", VObj answered)]))]) ∧
       answered !! "owner" = Some (VObj o) ∧
       (∀ k, o !! k = if bool_decide (k ∈ ["_id"; "name"; "email"; "phone"])
                      then u !! k else None) ∧
       ∀ k, k ≠ "owner" → answered !! k = property !! k).
Proof.
  intros property. split_and!.
  - apply newProperty_supplied, propertyData_owner.
  - intros owner. unfold create.
    assert (propertyData user (<["owner" := owner]> reqBody) = propertyData user reqBody)
      as ->; [|done].
    unfold propertyData. rewrite field_insert_ne by done.
    by rewrite (insert_insert_eq reqBody).
  - intros uid u Hu Hfu.
    assert (Hown : property !! "owner" = Some (VStr uid)).
    { rewrite <- Hu. apply newProperty_supplied, propertyData_owner. }
    destruct (populate_owner_found (users st) property uid u Hown Hfu) as (o & Ho & Hview).
    exists (populate_owner (users st) property), o.
    rewrite create_result. simpl. split_and!; [done|done|exact Hview|].
    intros k Hk. by apply lookup_populate_owner.
Qed.

Lemma create_owner_is_caller_witness :
  let user := Samples.account "u2" "9999999999" "user" "h:secret" true in
  let M := {| sendPropertyListedEmail := fun _ _ _ => true;
              sendAdminNotification := fun _ _ _ => true |} in
  ∃ answered o : Doc,
    (create M ∅ "p3" Samples.store0 user (obj [("owner", VStr "u1")])).1.2
    = json 201 (obj [
        ("success", VBool true);
        ("message", VStr "Property listed successfully and is now live on the website!");
        ("data", VObj (obj [("property", VObj answered)]))]) ∧
    answered !! "owner" = Some (VObj o) ∧
    o !! "_id" = Some (VStr "u2") ∧ o !! "name" = Some (VStr "Asha") ∧
    o !! "phone" = Some (VStr "9999999999") ∧ o !! "password" = None.
Proof.
  intros user M.
  destruct (proj2 (proj2 (create_owner_is_caller M ∅ "p3" Samples.store0 user
                            (obj [("owner", VStr "u1")]))) "u2" user eq_refl eq_refl)
    as (answered & o & Ha & Ho & Hview & _).
  exists answered, o. split_and!; [exact Ha|exact Ho|..]; by rewrite Hview.
Defined.

(** X6: the two notifications share one [try] block.  The admin is notified
    exactly when its notification resolves and the owner's confirmation, if
    there is an owner email, resolved before it; when the owner's
    confirmation is attempted and rejects, the log holds the one error and
    nothing else. *)
Theorem notify_admin_after_owner M (property : Doc) :
  let ownerEmail := field property "ownerEmail" in
  let ownerName := field property "ownerName" in
  (AdminNotificationSent ∈ notify M property
   ↔ sendAdminNotification M property ownerName ownerEmail = true
     ∧ (truthy ownerEmail = true →
        sendPropertyListedEmail M property ownerEmail ownerName = true)) ∧
  (truthy ownerEmail = true →
   sendPropertyListedEmail M property ownerEmail ownerName = false →
   notify M property = [ErrorLogged "Email notification error:"]) ∧
  (ListedEmailSent ∈ notify M property → truthy ownerEmail = true).
Proof.
  intros ownerEmail ownerName. unfold notify. fold ownerEmail ownerName.
  destruct (truthy ownerEmail) eqn:He;
    destruct (sendPropertyListedEmail M property ownerEmail ownerName) eqn:Hl;
    destruct (sendAdminNotification M property ownerName ownerEmail) eqn:Ha;
    (split_and!; [split|..]; try done;
     rewrite ?elem_of_cons, ?elem_of_nil;
     intuition (try congruence; try discriminate)).
Qed.

Lemma notify_admin_after_owner_witness :
  let M := {| sendPropertyListedEmail := fun _ _ _ => false;
              sendAdminNotification := fun _ _ _ => true |} in
  notify M (obj [("ownerEmail", VStr "o@x.in")])
  = [ErrorLogged "Email notification error:"].
Proof.
  intros M.
  apply (proj1 (proj2 (notify_admin_after_owner M (obj [("ownerEmail", VStr "o@x.in")]))));
    reflexivity.
Defined.

(** X7: the admin list returns every stored property, approved or not,
    active or not, each with its owner populated: the list of the answer is
    a rearrangement of the whole collection. *)
Theorem allProperties_lists_everything E st :
  (∀ k dir docs, sort_docs E k dir docs ≡ₚ docs) →
  ∃ results,
    allProperties E st
    = json 200 (obj [("success", VBool true);
                     ("data", VObj (obj [("properties", VArr (VObj <$> results))]))]) ∧
    results ≡ₚ populate_owner (users st) <$> properties st ∧
    length results = length (properties st).
Proof.
  intros Hsort. eexists. split; [reflexivity|]. split.
  - by rewrite Hsort.
  - by rewrite length_fmap, (Permutation_length (Hsort _ _ _)).
Qed.

Lemma allProperties_lists_everything_witness :
  ∃ results,
    allProperties Samples.numericEngine Samples.store0
    = json 200 (obj [("success", VBool true);
                     ("data", VObj (obj [("properties", VArr (VObj <$> results))]))]) ∧
    length results = 2%nat.
Proof.
  destruct (allProperties_lists_everything Samples.numericEngine Samples.store0
              sort_numeric_perm) as (results & H1 & _ & H2).
  exists results. split; [exact H1|exact H2].
Defined.

(** X8: for [type] and for [bhk], the value "all" and the empty string set
    no filter: the search answers as if the parameter were absent. *)
Theorem search_all_is_no_filter E st q type bhk :
  Vary.no_filter type → Vary.no_filter bhk →
  search E st (Vary.with_type_bhk q type bhk)
  = search E st (Vary.with_type_bhk q None None).
Proof.
  intros [->|[->| ->]] [->|[->| ->]]; reflexivity.
Qed.

Lemma search_all_is_no_filter_witness :
  search Samples.numericEngine Samples.store0 (Samples.byType "all" "")
  = search Samples.numericEngine Samples.store0 Samples.noQuery.
Proof.
  apply (search_all_is_no_filter Samples.numericEngine Samples.store0
           Samples.noQuery (Some "all") (Some "")).
  - right. by right.
  - right. by left.
Defined.

(** X9: for a page [p] and a limit [l] that the query gives as decimal
    integers of at least 1 (1 and 12 when it does not give them), a page
    never holds more than [l] documents: it holds the documents left after
    the [(p - 1) * l] skipped ones, up to [l].  A page past the last one is
    answered 200 with no documents and [hasNext] false. *)
Theorem search_page_size E st q (f : Filter) found p l :
  (∀ k dir docs, sort_docs E k dir docs ≡ₚ docs) →
  build_filter q = Some f → find E f (properties st) = Some found →
  asks_for (q_page q) 1 p → asks_for (q_limit q) 12 l →
  1 ≤ p → 1 ≤ l →
  let total := Z.of_nat (length found) in
  ∃ results pagination,
    search E st q = Some (search_answer results pagination) ∧
    Z.of_nat (length results) = Z.min l (Z.max 0 (total - (p - 1) * l)) ∧
    (total ≤ (p - 1) * l → results = [] ∧ pagination !! "hasNext" = Some (VBool false)).
Proof.
  intros Hsort Hf Hfound Hpage Hlimit Hp1 Hl1 total.
  destruct (asks_for_page _ _ Hpage) as [Hp Hcur].
  pose proof (asks_for_limit _ _ Hlimit) as Hl.
  eexists _, _. split; [by apply (search_modelled E st q f found p l p)|].
  assert (Hlen : length (found_sorted E q found) = length found).
  { unfold found_sorted. by rewrite (Permutation_length (Hsort _ _ _)). }
  assert (Hskip : 0 ≤ (p - 1) * l) by nia.
  split.
  - rewrite length_fmap, length_take, length_drop, Hlen. unfold total. lia.
  - intros Hpast. split.
    + rewrite drop_ge; [by rewrite take_nil|]. rewrite Hlen. unfold total in Hpast. lia.
    + pose proof (ceil_div_spec total l ltac:(lia) Hl1) as Hc.
      assert (Hnext : (p <? ceil_div total l) = false) by (apply Z.ltb_ge; nia).
      unfold total in Hnext. simpl. rewrite Hnext. reflexivity.
Qed.

Lemma search_page_size_witness :
  (∃ results pagination,
     search Samples.numericEngine Samples.store25 (Samples.byPage "3" "10")
       = Some (search_answer results pagination) ∧
     length results = 5%nat) ∧
  (∃ results pagination,
     search Samples.numericEngine Samples.store25 (Samples.byPage "4" "10")
       = Some (search_answer results pagination) ∧
     results = [] ∧ pagination !! "hasNext" = Some (VBool false)).
Proof.
  split.
  - destruct (search_page_size Samples.numericEngine Samples.store25
                (Samples.byPage "3" "10")
                [("isApproved", EqBool true); ("isActive", EqBool true)]
                (properties Samples.store25) 3 10
                sort_numeric_perm eq_refl eq_refl
                (or_intror (ex_intro _ "3" (conj eq_refl eq_refl)))
                (or_intror (ex_intro _ "10" (conj eq_refl eq_refl)))
                ltac:(lia) ltac:(lia))
      as (results & pagination & Hs & Hlen & _).
    exists results, pagination. split; [exact Hs|].
    change (Z.of_nat (length (properties Samples.store25))) with 25 in Hlen. lia.
  - destruct (search_page_size Samples.numericEngine Samples.store25
                (Samples.byPage "4" "10")
                [("isApproved", EqBool true); ("isActive", EqBool true)]
                (properties Samples.store25) 4 10
                sort_numeric_perm eq_refl eq_refl
                (or_intror (ex_intro _ "4" (conj eq_refl eq_refl)))
                (or_intror (ex_intro _ "10" (conj eq_refl eq_refl)))
                ltac:(lia) ltac:(lia))
      as (results & pagination & Hs & _ & Hpast).
    exists results, pagination. split; [exact Hs|].
    apply Hpast. vm_compute. discriminate.
Defined.

Lemma filter_matches_nil E (f : Filter) (l : list Doc) :
  (∀ d, matches E f d = true → False) → List.filter (matches E f) l = [].
Proof.
  intros H. induction l as [|d l IH]; simpl; [done|].
  destruct (matches E f d) eqn:Hd; [by destruct (H d)|done].
Qed.

(** X10: when the lower price bound read from [minPrice] is above the upper
    bound read from [maxPrice], a search that is answered finds nothing:
    no documents, [totalProperties] and [totalPages] 0, [hasNext] false. *)
Theorem search_inverted_price_range E st q x y lo hi resp :
  (∀ k dir docs, sort_docs E k dir docs ≡ₚ docs) →
  given (q_minPrice q) x → given (q_maxPrice q) y →
  parseInt_str x = Some lo → parseInt_str y = Some hi → hi < lo →
  search E st q = Some resp →
  ∃ pagination,
    resp = search_answer [] pagination ∧
    pagination !! "totalProperties" = Some (VNum 0) ∧
    pagination !! "totalPages" = Some (VNum 0) ∧
    pagination !! "hasNext" = Some (VBool false).
Proof.
  intros Hsort Hx Hy Hlo Hhi Hlt Hs.
  destruct (search_inv _ _ _ _ Hs)
    as (f & found & p & l & cur & Hf & Hfind & Hp & Hl & Hcur & Hp1 & Hl1).
  rewrite (search_modelled _ _ _ _ _ _ _ _ Hf Hfind Hp Hl Hcur Hp1 Hl1) in Hs.
  injection Hs as <-.
  assert (Hnone : found = []).
  { rewrite (find_spec _ _ _ _ Hfind). apply filter_matches_nil. intros d Hd.
    apply (build_filter_spec E d q f Hf) in Hd
      as (_ & _ & _ & _ & _ & _ & Hmin & Hmax & _).
    destruct (Hmin x Hx) as (lo' & price & Hlo' & Hprice & Hle).
    destruct (Hmax y Hy) as (hi' & price' & Hhi' & Hprice' & Hle').
    assert (lo' = lo) by congruence. assert (hi' = hi) by congruence.
    assert (price' = price) by congruence. lia. }
  subst found.
  assert (Hsorted : found_sorted E q [] = []).
  { unfold found_sorted. apply Permutation_nil_r, Hsort. }
  rewrite Hsorted. change (Z.of_nat (length (@nil Doc))) with 0.
  assert (Hceil : ceil_div 0 l = 0).
  { unfold ceil_div. rewrite Z.mod_0_l, Z.div_0_l by lia. done. }
  rewrite Hceil, drop_nil, take_nil.
  assert ((p <? 0) = false) as -> by (apply Z.ltb_ge; lia).
  eexists. split; [reflexivity|]. split_and!; reflexivity.
Qed.

Lemma search_inverted_price_range_witness :
  ∃ pagination,
    search Samples.numericEngine Samples.store0
      (Vary.with_prices Samples.noQuery (Some "200") (Some "100abc"))
    = Some (search_answer [] pagination) ∧
    pagination !! "totalProperties" = Some (VNum 0).
Proof.
  destruct (search_inverted_price_range Samples.numericEngine Samples.store0
              (Vary.with_prices Samples.noQuery (Some "200") (Some "100abc"))
              "200" "100abc" 200 100 _ sort_numeric_perm
              ltac:(by split) ltac:(by split) eq_refl eq_refl ltac:(lia) eq_refl)
    as (pagination & Hr & Ht & _).
  exists pagination. split; [|exact Ht]. by rewrite <- Hr.
Defined.

(** ** More on the auth router *)

Section Register.
Variable S : Services.
Variable secret : string.
Variable defaults : Doc.
Variable st : Store.

(** The document a registration stores. *)
Lemma register_created freshId name email phone password :
  findOne "phone" phone (users st) = None →
  (if truthy (from_option VStr VUndef email)
   then findOne "email" (default "" email) (users st) else None) = None →
  ∃ user : Doc,
    (register S secret defaults freshId st name email phone password).1.1
      = with_users st (users st ++ [user]) ∧
    status (register S secret defaults freshId st name email phone password).1.2 = 201 ∧
    user !! "phone" = Some (VStr phone) ∧
    user !! "password" = Some (VStr (hashPassword S password)) ∧
    user !! "_id" = Some (VStr freshId) ∧
    user !! "isActive" = defaults !! "isActive".
Proof.
  intros Hp He. unfold register. rewrite Hp, He. simpl.
  eexists. split; [reflexivity|]. split; [reflexivity|].
  split_and!.
  - apply lookup_union_Some_l. unfold obj. simpl. by simplify_map_eq.
  - apply lookup_union_Some_l. unfold obj. simpl. by simplify_map_eq.
  - rewrite lookup_union_r; [apply lookup_insert_eq|].
    unfold obj. simpl. by simplify_map_eq.
  - rewrite lookup_union_r; [by rewrite lookup_insert_ne|].
    unfold obj. simpl. by simplify_map_eq.
Qed.

(** A registration answered 201 passed both checks. *)
Lemma register_201_inv freshId name email phone password :
  status (register S secret defaults freshId st name email phone password).1.2 = 201 →
  findOne "phone" phone (users st) = None ∧
  (if truthy (from_option VStr VUndef email)
   then findOne "email" (default "" email) (users st) else None) = None.
Proof.
  unfold register. destruct (findOne "phone" phone (users st)); [done|].
  destruct (if truthy _ then _ else _); done.
Qed.

End Register.

Lemma findOne_app_last key s (c : list Doc) d :
  is_str s (field d key) = true → is_Some (findOne key s (c ++ [d])).
Proof.
  intros Hd. unfold findOne. induction c as [|x c IH]; simpl.
  - rewrite Hd. by eexists.
  - destruct (is_str s (field x key)); [by eexists|done].
Qed.

Lemma findOne_app_new key s (c : list Doc) d :
  findOne key s c = None → is_str s (field d key) = true →
  findOne key s (c ++ [d]) = Some d.
Proof.
  intros Hn Hd. unfold findOne in *. apply find_none_Forall in Hn.
  rewrite find_app_none by done. simpl. by rewrite Hd.
Qed.

Lemma is_str_field (d : Doc) k s : d !! k = Some (VStr s) → is_str s (field d k) = true.
Proof. intros H. unfold field. rewrite H. simpl. apply String.eqb_refl. Qed.

(** X11: a registration with a phone that a stored user has is answered
    400 "User already exists with this phone number"; with a free phone and
    a non-empty email that a stored user has, 400 "User already exists with
    this email address".  In both cases nothing is stored and nothing is
    logged. *)
Theorem register_conflicts S secret defaults freshId st name email phone password :
  (∀ u, findOne "phone" phone (users st) = Some u →
     register S secret defaults freshId st name email phone password
     = (st, failure 400 "User already exists with this phone number", [])) ∧
  (∀ e u, findOne "phone" phone (users st) = None →
     email = Some e → e ≠ "" → findOne "email" e (users st) = Some u →
     register S secret defaults freshId st name email phone password
     = (st, failure 400 "User already exists with this email address", [])).
Proof.
  split.
  - intros u Hu. unfold register. by rewrite Hu.
  - intros e u Hp -> Hne Hu. unfold register. rewrite Hp. simpl.
    destruct (String.eqb_spec e ""); [done|]. simpl. by rewrite Hu.
Qed.

Lemma register_conflicts_witness :
  register Samples.services0 "k" ∅ "u3" Samples.store0 "Ravi" None "9999999999" "pw"
  = (Samples.store0, failure 400 "User already exists with this phone number", []).
Proof.
  apply (proj1 (register_conflicts Samples.services0 "k" ∅ "u3" Samples.store0
                  "Ravi" None "9999999999" "pw")
           (Samples.account "u2" "9999999999" "user" "h:secret" true)).
  reflexivity.
Defined.

(** X12: after a registration answered 201, every further registration
    with the same phone is answered 400 "User already exists with this
    phone number" and stores nothing, whatever its other fields. *)
Theorem register_twice S secret defaults freshId st name email phone password
    S' secret' defaults' freshId' name' email' password' :
  let first := register S secret defaults freshId st name email phone password in
  status first.1.2 = 201 →
  register S' secret' defaults' freshId' first.1.1 name' email' phone password'
  = (first.1.1, failure 400 "User already exists with this phone number", []).
Proof.
  intros first Hok.
  destruct (register_201_inv _ _ _ _ _ _ _ _ _ Hok) as [Hp He].
  destruct (register_created S secret defaults st freshId name email phone password Hp He)
    as (user & Hst & _ & Hphone & _).
  fold first in Hst.
  destruct (findOne_app_last "phone" phone (users st) user (is_str_field _ _ _ Hphone))
    as [u Hu].
  unfold register. rewrite Hst. simpl. by rewrite Hu.
Qed.

Lemma register_twice_witness :
  let first := register Samples.services0 "k" ∅ "u3" Samples.store0
                 "Ravi" None "7777777777" "pw" in
  register Samples.services0 "k" ∅ "u4" first.1.1 "Mira" (Some "m@x.in") "7777777777" "other"
  = (first.1.1, failure 400 "User already exists with this phone number", []).
Proof.
  intros first.
  apply (register_twice Samples.services0 "k" ∅ "u3" Samples.store0
           "Ravi" None "7777777777" "pw"). reflexivity.
Defined.

(** X13: when the password check accepts the hash the model stores and new
    users are active by default, a login with the phone and password of a
    registration answered 201 is answered 200. *)
Theorem register_then_login S secret defaults freshId st name email phone password now :
  (∀ (u : Doc) p, field u "password" = VStr (hashPassword S p) →
                  comparePassword S u p = true) →
  truthy (field defaults "isActive") = true →
  let first := register S secret defaults freshId st name email phone password in
  status first.1.2 = 201 →
  status (login S secret now first.1.1 phone password).2 = 200.
Proof.
  intros Hcmp Hact first Hok.
  destruct (register_201_inv _ _ _ _ _ _ _ _ _ Hok) as [Hp He].
  destruct (register_created S secret defaults st freshId name email phone password Hp He)
    as (user & Hst & _ & Hphone & Hpw & _ & Hactive).
  fold first in Hst.
  assert (Hu : findOne "phone" phone (users first.1.1) = Some user).
  { rewrite Hst. simpl. apply findOne_app_new; [done|by apply is_str_field]. }
  unfold login. rewrite Hu.
  assert (field user "isActive" = field defaults "isActive") as Ha
    by (unfold field; by rewrite Hactive).
  rewrite Ha, Hact. simpl.
  rewrite Hcmp; [done|]. unfold field. by rewrite Hpw.
Qed.

Lemma register_then_login_witness :
  let defaults := obj [("isActive", VBool true); ("role", VStr "user")] in
  let first := register Samples.services0 "k" defaults "u3" Samples.store0
                 "Ravi" None "7777777777" "pw" in
  status (login Samples.services0 "k" 5 first.1.1 "7777777777" "pw").2 = 200.
Proof.
  intros defaults first.
  apply (register_then_login Samples.services0 "k" defaults "u3" Samples.store0
           "Ravi" None "7777777777" "pw" 5).
  - intros u p Hu. simpl. rewrite Hu. simpl. apply String.eqb_refl.
  - reflexivity.
  - reflexivity.
Defined.

(** X14: whatever the request and the store, the user object in the answer
    of a registration, of a login and of an admin login has no [password]
    field. *)
Theorem auth_answers_hide_password S secret defaults freshId now st
    name email phone password (d u : Doc) :
  let answers :=
    [(register S secret defaults freshId st name email phone password).1.2;
     (login S secret now st phone password).2;
     (adminLogin S secret now st phone password).2] in
  ∀ r, r ∈ answers →
    body r !! "data" = Some (VObj d) → d !! "user" = Some (VObj u) →
    u !! "password" = None.
Proof.
  intros answers r Hr Hd Hu.
  assert (Hview : ∀ user, login_view user !! "password" = None).
  { intros user. unfold login_view, obj. simpl. by simplify_map_eq. }
  unfold answers in Hr.
  rewrite !elem_of_cons, elem_of_nil in Hr.
  destruct Hr as [->|[->|[->|[]]]].
  - unfold register in Hd.
    destruct (findOne "phone" phone (users st));
      [by vm_compute in Hd|].
    destruct (if truthy _ then _ else _);
      [by vm_compute in Hd|].
    unfold obj in Hd. simpl in Hd. simplify_map_eq.
    unfold obj. simpl. by simplify_map_eq.
  - unfold login in Hd.
    destruct (findOne "phone" phone (users st)) as [user|];
      [|by vm_compute in Hd].
    destruct (negb (truthy (field user "isActive")));
      [by vm_compute in Hd|].
    destruct (negb (comparePassword S user password));
      [by vm_compute in Hd|].
    unfold obj in Hd. simpl in Hd. simplify_map_eq. apply Hview.
  - unfold adminLogin in Hd.
    destruct (findOne "phone" phone (users st)) as [user|];
      [|by vm_compute in Hd].
    destruct (negb (is_str "admin" (field user "role")));
      [by vm_compute in Hd|].
    destruct (negb (comparePassword S user password));
      [by vm_compute in Hd|].
    unfold obj in Hd. simpl in Hd. simplify_map_eq. apply Hview.
Qed.

Lemma auth_answers_hide_password_witness :
  let user := <["lastLogin" := VNum 5]>
                (Samples.account "u2" "9999999999" "user" "h:secret" true) in
  login_view user !! "password" = None.
Proof.
  intros user.
  apply (auth_answers_hide_password Samples.services0 "k" ∅ "u3" 5 Samples.store0
           "Ravi" None "9999999999" "secret"
           (obj [("user", VObj (login_view user)); ("token", VStr "jwt")])
           (login_view user)
           (login Samples.services0 "k" 5 Samples.store0 "9999999999" "secret").2).
  - apply list_elem_of_further, list_elem_of_here.
  - reflexivity.
  - reflexivity.
Defined.

Lemma save_replaces (c : list Doc) id (user user' : Doc) :
  findById id c = Some user → field user' "_id" = VStr id →
  ∃ l1 l2, c = l1 ++ user :: l2 ∧ save user' c = l1 ++ user' :: l2.
Proof.
  intros Hf Hid. destruct (find_split _ _ _ Hf) as (l1 & l2 & -> & Hd & Hl1).
  exists l1, l2. split; [done|]. unfold save. rewrite Hid.
  by apply replace_first_app.
Qed.

(** X15: a login that passes the three checks is answered 200 with a token
    signed over the user id alone, valid 7 days; in the store the user gets
    [lastLogin] set to the current time and nothing else changes: the other
    fields of the user, the other users, the properties. *)
Theorem login_records_last_login S secret now st phone password (user : Doc) id :
  findOne "phone" phone (users st) = Some user →
  field user "_id" = VStr id → findById id (users st) = Some user →
  truthy (field user "isActive") = true →
  comparePassword S user password = true →
  let result := login S secret now st phone password in
  ∃ l1 l2,
    users st = l1 ++ user :: l2 ∧
    users result.1 = l1 ++ <["lastLogin" := VNum now]> user :: l2 ∧
    properties result.1 = properties st ∧
    result.2 = json 200 (obj [
      ("success", VBool true);
      ("message", VStr "Login successful! Welcome back.");
      ("data", VObj (obj [
         ("user", VObj (login_view (<["lastLogin" := VNum now]> user)));
         ("token", VStr (jwt_sign S (obj [("userId", VStr id)]) secret "7d"))]))]).
Proof.
  intros Hu Hid Hf Ha Hp result.
  assert (Hid' : field (<["lastLogin" := VNum now]> user) "_id" = VStr id)
    by (by rewrite field_insert_ne).
  destruct (save_replaces _ _ _ _ Hf Hid') as (l1 & l2 & Hc & Hs).
  exists l1, l2. unfold result, login. rewrite Hu, Ha, Hp. simpl.
  rewrite Hs, Hid'. done.
Qed.

Lemma login_records_last_login_witness :
  ∃ l1 l2,
    users (login Samples.services0 "k" 5 Samples.store0 "9999999999" "secret").1
    = l1 ++ <["lastLogin" := VNum 5]>
              (Samples.account "u2" "9999999999" "user" "h:secret" true) :: l2.
Proof.
  destruct (login_records_last_login Samples.services0 "k" 5 Samples.store0
              "9999999999" "secret"
              (Samples.account "u2" "9999999999" "user" "h:secret" true) "u2"
              eq_refl eq_refl eq_refl eq_refl eq_refl)
    as (l1 & l2 & _ & H & _).
  by exists l1, l2.
Defined.

(** X16: the admin login gives one and the same answer, 401 "Invalid admin
    credentials", for a phone nobody has, for a user who is not an admin
    (even with the right password) and for an admin with a wrong password,
    and then stores nothing. *)
Theorem adminLogin_failures_alike S secret now st phone password :
  (findOne "phone" phone (users st) = None →
   adminLogin S secret now st phone password
   = (st, failure 401 "Invalid admin credentials")) ∧
  (∀ user, findOne "phone" phone (users st) = Some user →
     is_str "admin" (field user "role") = false →
     adminLogin S secret now st phone password
     = (st, failure 401 "Invalid admin credentials")) ∧
  (∀ user, findOne "phone" phone (users st) = Some user →
     comparePassword S user password = false →
     adminLogin S secret now st phone password
     = (st, failure 401 "Invalid admin credentials")).
Proof.
  split_and!.
  - intros H. apply adminLogin_rejected. by left.
  - intros user H Hr. apply adminLogin_rejected. right. exists user. split; [done|by left].
  - intros user H Hp. apply adminLogin_rejected. right. exists user. split; [done|by right].
Qed.

Lemma adminLogin_failures_alike_witness :
  adminLogin Samples.services0 "k" 5 Samples.store0 "9999999999" "secret"
  = (Samples.store0, failure 401 "Invalid admin credentials") ∧
  adminLogin Samples.services0 "k" 5 Samples.store0 "2222222222" "wrong"
  = (Samples.store0, failure 401 "Invalid admin credentials") ∧
  adminLogin Samples.services0 "k" 5 Samples.store0 "0000000000" "secret"
  = (Samples.store0, failure 401 "Invalid admin credentials").
Proof.
  split_and!.
  - apply (proj1 (proj2 (adminLogin_failures_alike Samples.services0 "k" 5
                           Samples.store0 "9999999999" "secret"))
             (Samples.account "u2" "9999999999" "user" "h:secret" true));
      reflexivity.
  - apply (proj2 (proj2 (adminLogin_failures_alike Samples.services0 "k" 5
                           Samples.store0 "2222222222" "wrong"))
             (Samples.account "u1" "2222222222" "admin" "h:smitaa" false));
      reflexivity.
  - apply (proj1 (adminLogin_failures_alike Samples.services0 "k" 5
                    Samples.store0 "0000000000" "secret")). reflexivity.
Defined.

(** X17: GET /me is always answered 200 with [success: true].  For a user
    that is not (or no longer) stored the user of the answer is [null]; for
    a stored user it is the stored document without [password] and with
    every other field. *)
Theorem me_answers st reqUser :
  status (me st reqUser) = 200 ∧
  field (body (me st reqUser)) "success" = VBool true ∧
  (findByRef (field reqUser "_id") (users st) = None →
   me st reqUser = json 200 (obj [("success", VBool true);
                                  ("data", VObj (obj [("user", VNull)]))])) ∧
  (∀ stored, findByRef (field reqUser "_id") (users st) = Some stored →
     ∃ user : Doc,
       me st reqUser = json 200 (obj [("success", VBool true);
                                      ("data", VObj (obj [("user", VObj user)]))]) ∧
       user !! "password" = None ∧
       ∀ k, k ≠ "password" → user !! k = stored !! k).
Proof.
  split_and!; try reflexivity.
  - intros H. unfold me. by rewrite H.
  - intros stored H. unfold me. rewrite H. simpl.
    eexists. split; [reflexivity|]. unfold select_without. split.
    + apply lookup_delete_eq.
    + intros k Hk. by rewrite !lookup_delete_ne.
Qed.

Lemma me_answers_witness :
  me Samples.store0 (obj [("_id", VStr "gone")])
  = json 200 (obj [("success", VBool true);
                   ("data", VObj (obj [("user", VNull)]))]).
Proof.
  apply (proj1 (proj2 (proj2 (me_answers Samples.store0 (obj [("_id", VStr "gone")]))))).
  reflexivity.
Defined.

Lemma phone_taken_false (user : Doc) (c : list Doc) :
  phone_taken user c = false
  ↔ ∀ u : Doc, u ∈ c →
      scalar_eq (field u "_id") (field user "_id") = true
      ∨ scalar_eq (field u "phone") (field user "phone") = false.
Proof.
  unfold phone_taken. rewrite <- not_true_iff_false, existsb_exists. split.
  - intros H u Hu.
    destruct (scalar_eq (field u "_id") (field user "_id")) eqn:Hid; [by left|right].
    destruct (scalar_eq (field u "phone") (field user "phone")) eqn:Hp; [|done].
    exfalso. apply H. exists u. rewrite <- list_elem_of_In. by rewrite Hid, Hp.
  - intros H (u & Hu%list_elem_of_In & Hc). apply andb_true_iff in Hc as [Hid Hp].
    apply negb_true_iff in Hid. destruct (H u Hu); congruence.
Qed.

(** X18: a profile update of a stored user is answered 200 exactly when no
    other user has the phone the user is left with (the store keeps phones
    unique).  It then changes, in that user's document, [name] when the
    body's [name] is truthy and [phone] when the body's [phone] is truthy,
    and nothing else: every other field, [role], [password] and [isActive]
    among them, stays as stored whatever the body carries, and so do the
    other users and the properties.  When another user has that phone, and
    when the user is not stored, the answer is 500 and nothing changes. *)
Theorem updateProfile_changes_name_and_phone st reqUser (reqBody : Doc) :
  (findByRef (field reqUser "_id") (users st) = None →
   updateProfile st reqUser reqBody
   = (st, failure 500 "Server error while updating profile")) ∧
  (∀ stored, findByRef (field reqUser "_id") (users st) = Some stored →
     ∃ user : Doc,
       user !! "name" = (if truthy (field reqBody "name")
                         then Some (field reqBody "name") else stored !! "name") ∧
       user !! "phone" = (if truthy (field reqBody "phone")
                          then Some (field reqBody "phone") else stored !! "phone") ∧
       (∀ k, k ≠ "name" → k ≠ "phone" → user !! k = stored !! k) ∧
       (phone_taken user (users st) = true →
        updateProfile st reqUser reqBody
        = (st, failure 500 "Server error while updating profile")) ∧
       (phone_taken user (users st) = false →
        ∃ l1 l2,
          users st = l1 ++ stored :: l2 ∧
          users (updateProfile st reqUser reqBody).1 = l1 ++ user :: l2 ∧
          properties (updateProfile st reqUser reqBody).1 = properties st ∧
          status (updateProfile st reqUser reqBody).2 = 200)).
Proof.
  split.
  - intros H. unfold updateProfile. by rewrite H.
  - intros stored H. unfold updateProfile. rewrite H. simpl.
    unfold findByRef in H. destruct (field reqUser "_id") as [| | | |id| |] eqn:Hid; try done.
    set (user1 := if truthy (field reqBody "name")
                  then <["name" := field reqBody "name"]> stored else stored).
    set (user2 := if truthy (field reqBody "phone")
                  then <["phone" := field reqBody "phone"]> user1 else user1).
    assert (Hother : ∀ k, k ≠ "name" → k ≠ "phone" → user2 !! k = stored !! k).
    { intros k Hn Hp. unfold user2, user1.
      destruct (truthy (field reqBody "name")), (truthy (field reqBody "phone"));
        by rewrite ?lookup_insert_ne by done. }
    assert (Hid2 : field user2 "_id" = VStr id).
    { unfold field. rewrite Hother by done.
      destruct (find_split _ _ _ H) as (_ & _ & _ & Hd & _).
      apply has_id_field in Hd. exact Hd. }
    exists user2. split_and!.
    + unfold user2, user1.
      destruct (truthy (field reqBody "name")), (truthy (field reqBody "phone"));
        by simplify_map_eq.
    + unfold user2, user1.
      destruct (truthy (field reqBody "name")), (truthy (field reqBody "phone"));
        by simplify_map_eq.
    + exact Hother.
    + intros Ht. by rewrite Ht.
    + intros Ht. rewrite Ht. simpl.
      destruct (save_replaces _ _ _ _ H Hid2) as (l1 & l2 & Hc & Hs).
      exists l1, l2. by rewrite Hs.
Qed.

Lemma updateProfile_changes_name_and_phone_witness :
  let reqUser := Samples.account "u2" "9999999999" "user" "h:secret" true in
  let reqBody := obj [("name", VStr ""); ("phone", VStr "8888888888");
                      ("role", VStr "admin")] in
  (∃ l1 l2 (user : Doc),
     users (updateProfile Samples.store0 reqUser reqBody).1 = l1 ++ user :: l2 ∧
     status (updateProfile Samples.store0 reqUser reqBody).2 = 200 ∧
     user !! "name" = Some (VStr "Asha") ∧
     user !! "phone" = Some (VStr "8888888888") ∧
     user !! "role" = Some (VStr "user")) ∧
  updateProfile Samples.store0 reqUser (obj [("phone", VStr "2222222222")])
  = (Samples.store0, failure 500 "Server error while updating profile").
Proof.
  intros reqUser reqBody. split.
  - destruct (proj2 (updateProfile_changes_name_and_phone Samples.store0 reqUser reqBody)
                reqUser eq_refl)
      as (user & Hn & Hp & Ho & _ & Hfree).
    destruct Hfree as (l1 & l2 & _ & Hs & _ & Hok).
    { apply phone_taken_false. intros u Hu. unfold field.
      rewrite Hp, (Ho "_id") by discriminate. simpl.
      apply list_elem_of_In in Hu. simpl in Hu.
      destruct Hu as [<-|[<-|[]]]; [by right|by left]. }
    exists l1, l2, user. split_and!; [exact Hs|exact Hok|exact Hn|exact Hp|].
    rewrite Ho; [reflexivity|discriminate|discriminate].
  - destruct (proj2 (updateProfile_changes_name_and_phone Samples.store0 reqUser
                       (obj [("phone", VStr "2222222222")]))
                reqUser eq_refl)
      as (user & _ & Hp & Ho & Htaken & _).
    apply Htaken. unfold phone_taken. apply existsb_exists.
    exists (Samples.account "u1" "2222222222" "admin" "h:smitaa" false).
    split; [left; reflexivity|].
    unfold field. rewrite Hp, (Ho "_id") by discriminate. reflexivity.
Defined.

(** ** createAdmin.js *)

Lemma string_app_nil_r s : s +:+ "" = s.
Proof.
  induction s as [|c s IH]; [done|].
  change (String c (s +:+ "") = String c s). by rewrite IH.
Qed.

Lemma string_app_assoc a b c : (a +:+ b) +:+ c = a +:+ (b +:+ c).
Proof.
  induction a as [|x a IH]; [done|].
  change (String x ((a +:+ b) +:+ c) = String x (a +:+ (b +:+ c))). by rewrite IH.
Qed.

Lemma endsWith_spec s suf : Seed.endsWith s suf = true ↔ ∃ a, s = a +:+ suf.
Proof.
  induction s as [|c s IH].
  - change (Seed.endsWith "" suf) with (String.eqb "" suf || false).
    rewrite orb_false_r, String.eqb_eq. split.
    + intros <-. by exists "".
    + intros [a Ha]. destruct a as [|x a]; [done|].
      change (String x a +:+ suf) with (String x (a +:+ suf)) in Ha. discriminate Ha.
  - change (Seed.endsWith (String c s) suf)
      with (String.eqb (String c s) suf || Seed.endsWith s suf).
    rewrite orb_true_iff, String.eqb_eq, IH. split.
    + intros [<-|[a ->]]; [by exists ""|by exists (String c a)].
    + intros [a Ha]. destruct a as [|x a]; [by left|].
      change (String x a +:+ suf) with (String x (a +:+ suf)) in Ha.
      right. injection Ha as -> ->. by exists a.
Qed.

Lemma includes_app_r a s : Seed.includes (a +:+ s) s = true.
Proof.
  unfold Seed.includes. apply substringb_spec. exists a, "".
  by rewrite string_app_nil_r.
Qed.

(** X19: the connection string the seeding script uses always contains the
    database name, and normalising it again changes nothing.  A configured
    string that contains the name is used as it is; one that does not gets
    "/vasaiProperty" at its end, the slash being added only when the string
    does not already end with one. *)
Theorem normalizeUri_names_database mongoUri :
  Seed.includes (Seed.normalizeUri mongoUri) "vasaiProperty" = true ∧
  Seed.normalizeUri (Seed.normalizeUri mongoUri) = Seed.normalizeUri mongoUri ∧
  (Seed.includes mongoUri "vasaiProperty" = true →
   Seed.normalizeUri mongoUri = mongoUri) ∧
  (Seed.includes mongoUri "vasaiProperty" = false →
   ∃ base,
     Seed.normalizeUri mongoUri = base +:+ "/vasaiProperty" ∧
     ((mongoUri = base ∧ Seed.endsWith mongoUri "/" = false)
      ∨ mongoUri = base +:+ "/")).
Proof.
  assert (Hfix : ∀ u, Seed.includes u "vasaiProperty" = true → Seed.normalizeUri u = u).
  { intros u Hu. unfold Seed.normalizeUri. by rewrite Hu. }
  assert (Hadd : Seed.includes mongoUri "vasaiProperty" = false →
            ∃ base,
              Seed.normalizeUri mongoUri = base +:+ "/vasaiProperty" ∧
              ((mongoUri = base ∧ Seed.endsWith mongoUri "/" = false)
               ∨ mongoUri = base +:+ "/")).
  { intros Hu. unfold Seed.normalizeUri. rewrite Hu. simpl.
    destruct (Seed.endsWith mongoUri "/") eqn:He.
    - apply endsWith_spec in He as [base ->]. exists base. split; [|by right].
      by rewrite string_app_assoc.
    - exists mongoUri. split; [done|by left]. }
  assert (Hin : Seed.includes (Seed.normalizeUri mongoUri) "vasaiProperty" = true).
  { destruct (Seed.includes mongoUri "vasaiProperty") eqn:Hu; [by rewrite Hfix|].
    destruct (Hadd eq_refl) as (base & -> & _).
    change (base +:+ "/vasaiProperty") with (base +:+ ("/" +:+ "vasaiProperty")).
    rewrite <- string_app_assoc. apply includes_app_r. }
  split_and!; [done|by apply Hfix|by apply Hfix|done].
Qed.

Lemma normalizeUri_names_database_witness :
  Seed.normalizeUri "mongodb://db.example.com:27017/"
  = "mongodb://db.example.com:27017" +:+ "/vasaiProperty" ∧
  Seed.normalizeUri "mongodb://db.example.com:27017"
  = "mongodb://db.example.com:27017" +:+ "/vasaiProperty" ∧
  Seed.normalizeUri "mongodb://db.example.com/vasaiProperty?w=1"
  = "mongodb://db.example.com/vasaiProperty?w=1".
Proof.
  split_and!.
  - destruct (proj2 (proj2 (proj2 (normalizeUri_names_database
                "mongodb://db.example.com:27017/"))) eq_refl) as (base & _ & _).
    reflexivity.
  - destruct (proj2 (proj2 (proj2 (normalizeUri_names_database
                "mongodb://db.example.com:27017"))) eq_refl) as (base & _ & _).
    reflexivity.
  - apply (proj1 (proj2 (proj2 (normalizeUri_names_database
             "mongodb://db.example.com/vasaiProperty?w=1")))). reflexivity.
Defined.

Lemma createAdmin_taken S bcryptHash defaults freshId st u :
  findOne "phone" "2222222222" (users st) = Some u →
  Seed.createAdmin S bcryptHash defaults freshId st = (st, Seed.AdminExists).
Proof. intros Hu. unfold Seed.createAdmin, Seed.adminPhone. by rewrite Hu. Qed.

Lemma createAdmin_fresh S bcryptHash defaults freshId st :
  findOne "phone" "2222222222" (users st) = None →
  ∃ admin : Doc,
    Seed.createAdmin S bcryptHash defaults freshId st
    = (with_users st (users st ++ [admin]), Seed.AdminCreated) ∧
    admin !! "phone" = Some (VStr "2222222222") ∧
    admin !! "role" = Some (VStr "admin") ∧
    admin !! "isActive" = Some (VBool true) ∧
    admin !! "password" = Some (VStr (hashPassword S (bcryptHash "smitaa" 10))).
Proof.
  intros Hn. unfold Seed.createAdmin, Seed.adminPhone. rewrite Hn.
  eexists. split; [reflexivity|].
  split_and!; apply lookup_union_Some_l; unfold obj; simpl; by simplify_map_eq.
Qed.

(** X20: the seeding script stores an admin at most once.  When some user,
    admin or not, already has the seed phone the store is left as it is;
    otherwise one user is added, with that phone, role admin, [isActive]
    true and, as password, what the model stores for the hash of the seed
    password.  A second run always finds the phone taken and changes
    nothing.  The properties are never touched. *)
Theorem createAdmin_seeds_once S bcryptHash defaults freshId freshId' st :
  let first := Seed.createAdmin S bcryptHash defaults freshId st in
  Seed.createAdmin S bcryptHash defaults freshId' first.1 = (first.1, Seed.AdminExists) ∧
  properties first.1 = properties st ∧
  (∀ u, findOne "phone" "2222222222" (users st) = Some u →
        first = (st, Seed.AdminExists)) ∧
  (findOne "phone" "2222222222" (users st) = None →
   ∃ admin : Doc,
     first = (with_users st (users st ++ [admin]), Seed.AdminCreated) ∧
     admin !! "phone" = Some (VStr "2222222222") ∧
     admin !! "role" = Some (VStr "admin") ∧
     admin !! "isActive" = Some (VBool true) ∧
     admin !! "password" = Some (VStr (hashPassword S (bcryptHash "smitaa" 10)))).
Proof.
  intros first.
  pose proof (createAdmin_fresh S bcryptHash defaults freshId st) as Hnew.
  pose proof (createAdmin_taken S bcryptHash defaults freshId st) as Hold.
  fold first in Hnew, Hold.
  split_and!; try done.
  - destruct (findOne "phone" "2222222222" (users st)) as [u|] eqn:Hu.
    + rewrite (Hold u eq_refl). simpl.
      unfold Seed.createAdmin, Seed.adminPhone. by rewrite Hu.
    + destruct (Hnew eq_refl) as (admin & -> & Hphone & _). simpl.
      destruct (findOne_app_last "phone" "2222222222" (users st) admin
                  (is_str_field _ _ _ Hphone)) as [u' Hu'].
      unfold Seed.createAdmin, Seed.adminPhone. simpl. by rewrite Hu'.
  - destruct (findOne "phone" "2222222222" (users st)) as [u|] eqn:Hu.
    + by rewrite (Hold u eq_refl).
    + by destruct (Hnew eq_refl) as (admin & -> & _).
Qed.

Lemma createAdmin_seeds_once_witness :
  Seed.createAdmin Samples.services0 (fun p _ => p) ∅ "u9" Samples.store0
  = (Samples.store0, Seed.AdminExists) ∧
  ∃ admin : Doc,
    Seed.createAdmin Samples.services0 (fun p _ => p) ∅ "u9" Samples.store25
    = (with_users Samples.store25 [admin], Seed.AdminCreated) ∧
    admin !! "role" = Some (VStr "admin").
Proof.
  split.
  - apply (proj1 (proj2 (proj2 (createAdmin_seeds_once Samples.services0 (fun p _ => p)
                                  ∅ "u9" "u10" Samples.store0)))
             (Samples.account "u1" "2222222222" "admin" "h:smitaa" false)).
    reflexivity.
  - destruct (proj2 (proj2 (proj2 (createAdmin_seeds_once Samples.services0
                                     (fun p _ => p) ∅ "u9" "u10" Samples.store25)))
                eq_refl) as (admin & H1 & _ & H2 & _).
    exists admin. split; [exact H1|exact H2].
Defined.

(** ** The handlers on sample requests *)

Example parseInt_examples :
  parseInt_str "  -12abc" = Some (-12) ∧ parseInt_str "0x1F" = Some 31 ∧
  parseInt_str "12.5" = Some 12 ∧ parseInt_str "abc" = None.
Proof. by vm_compute. Qed.

Example pattern_examples :
  (fun r => Regex.search true r "Near Vasai West") <$> Regex.compile "vasai"
    = Some true ∧
  (fun r => Regex.search true r "abc") <$> Regex.compile "a.c" = Some true ∧
  (fun r => Regex.search true r "ab") <$> Regex.compile "a.c" = Some false ∧
  Regex.compile "a(c" = None.
Proof. by vm_compute. Qed.

(** With a flat and a shop stored, [type=flat&bhk=all] returns the approved
    flat only. *)
Example search_type_flat_bhk_all :
  search Samples.numericEngine Samples.store0 (Samples.byType "flat" "all")
  = Some (search_answer
            [populate_owner (users Samples.store0)
               (Samples.listing "p1" "flat" "abc" 100 7 true)]
            (obj [("currentPage", VNum 1); ("totalPages", VNum 1);
                  ("totalProperties", VNum 1); ("hasNext", VBool false);
                  ("hasPrev", VBool false)])).
Proof. vm_compute. reflexivity. Qed.

(** Page 2 of 25 with limit 12: the 13th to the 24th in descending creation
    time are those created at times 13 down to 2. *)
Example search_page_two_of_three :
  ∃ results,
    search Samples.numericEngine Samples.store25 (Samples.byPage "2" "12")
    = Some (search_answer results
              (obj [("currentPage", VNum 2); ("totalPages", VNum 3);
                    ("totalProperties", VNum 25); ("hasNext", VBool true);
                    ("hasPrev", VBool true)])) ∧
    (fun d : Doc => field d "createdAt") <$> results
    = VNum <$> [13; 12; 11; 10; 9; 8; 7; 6; 5; 4; 3; 2].
Proof.
  eexists. split.
  - by apply (search_modelled Samples.numericEngine Samples.store25
                (Samples.byPage "2" "12")
                [("isApproved", EqBool true); ("isActive", EqBool true)]
                (properties Samples.store25) 2 12 2).
  - vm_compute. reflexivity.
Qed.

Example getOne_twice :
  ∃ st1 r1 st2 r2,
    getOne Samples.store0 "p1" = Some (st1, r1) ∧
    getOne st1 "p1" = Some (st2, r2) ∧
    (fun d : Doc => field d "views") <$> findById "p1" (properties Samples.store0)
      = Some (VNum 7) ∧
    (fun d : Doc => field d "views") <$> findById "p1" (properties st1)
      = Some (VNum 8) ∧
    (fun d : Doc => field d "views") <$> findById "p1" (properties st2)
      = Some (VNum 9).
Proof.
  eexists _, _, _, _. split; [reflexivity|]. split; [reflexivity|].
  by vm_compute.
Qed.
